(** * foremast.utils.gcp_environment

    A shallow embedding of [src/foremast/utils/gcp_environment.py]: the
    [GcpResource] and [GcpEnvironment] classes, their two memoised project
    lookups and the construction of the environments from the static
    configuration, followed by the properties of the specification that
    concern them.

    Conventions of the embedding.
    - Python values that come from configuration or from the JSON of the
      resource manager API are terms of [value]; a project record is a JSON
      object, that is a finite map from keys to values.
    - A method is a computation in the state and exception monad [M]: it
      receives the state, returns a result or raises, and hands back the
      state as the method left it.  The state of a [GcpEnvironment] method
      holds the instance ([self]) and the trace of the calls made to the
      collaborators (credential file, discovery service, projects.list).
    - The collaborators are an oracle [Externals] whose answers may depend
      on everything that happened before.
    - [LOG.debug] calls are not modelled. *)

From stdpp Require Import gmap strings list fin_maps.

Set Warnings "-register-all".
Set Default Proof Using "Type".


(** ** Values, exceptions, results *)

Inductive value : Type :=
| VNone
| VBool (b : bool)
| VInt (z : Z)
| VStr (s : string)
| VList (l : list value)
| VDict (d : gmap string value).

(** A project as the API returns it: a JSON object. *)
Abbreviation Project := (gmap string value).

(** The exceptions that can leave this module.  The texts of the errors the
    interpreter itself raises are abbreviated; the texts of the errors the
    module raises are the module's. *)
Inductive exn : Type :=
| GoogleInfrastructureError (msg : string)
| KeyError (msg : string)
| TypeError (msg : string)
| IndexError (msg : string)
| AttributeError (msg : string)
| CollaboratorError (msg : string).

Inductive result (A : Type) : Type :=
| Ok (a : A)
| Raise (e : exn).
Arguments Ok {A} a.
Arguments Raise {A} e.

(** ** The state and exception monad *)

Definition M (St A : Type) : Type := St → result A * St.

#[export] Instance M_ret {St} : MRet (M St) := λ A a st, (Ok a, st).

#[export] Instance M_bind {St} : MBind (M St) := λ A B f m st,
  match m st with
  | (Ok a, st') => f a st'
  | (Raise e, st') => (Raise e, st')
  end.

Definition raise {St A} (e : exn) : M St A := λ st, (Raise e, st).
Definition get {St} : M St St := λ st, (Ok st, st).
Definition lift {St A} (r : result A) : M St A := λ st, (r, st).

(** ** Strings *)

(** [s] occurs in [t] as a contiguous piece. *)
Definition occurs_in (s t : string) : Prop :=
  ∃ before after, t = before +:+ s +:+ after.

(** ASCII lower-casing, as [str.lower] on ASCII text. *)
Definition lower_ascii (c : Ascii.ascii) : Ascii.ascii :=
  let n := Ascii.nat_of_ascii c in
  if bool_decide (65 ≤ n ≤ 90)%nat then Ascii.ascii_of_nat (n + 32) else c.

Fixpoint lower (s : string) : string :=
  match s with
  | EmptyString => EmptyString
  | String c s' => String (lower_ascii c) (lower s')
  end.

(** ** GcpResource *)

Module GcpResource.

(** [def __init__(self, **entries)]: the instance is its attribute
    dictionary.  A keyword called [self] collides with the receiver. *)
Definition __init__ (entries : gmap string value) : result (gmap string value) :=
  if bool_decide (is_Some (entries !! "self")) then
    Raise (TypeError "__init__() got multiple values for argument 'self'")
  else
    let __dict__ : gmap string value := {[ "project" := VNone ]} in
    (* self.__dict__.update(entries) *)
    Ok (entries ∪ __dict__).

Definition validate : M (gmap string value) unit :=
  self ← get;
  match self !! "project" with
  | None => raise (AttributeError "'GcpResource' object has no attribute 'project'")
  | Some VNone =>
      raise (KeyError "A project must be specified when creating or referencing a GCP Resource")
  | Some _ => mret tt
  end.

End GcpResource.

(** ** The collaborators *)

Inductive Credentials : Type :=
| ServiceAccountCredentials (filename : value) (scopes : list string).

Inductive Service : Type :=
| Resource (serviceName version : string) (credentials : Credentials).

(** What the module asks of the outside world, in the order it asks. *)
Inductive event : Type :=
| FromServiceAccountFile (filename : value) (scopes : list string)
| DiscoveryBuild (serviceName version : string) (credentials : Credentials)
| ProjectsListExecute (service : Service) (filter : string).

(** The response of projects.list: a JSON object whose [projects] member is
    absent or a list of project objects. *)
Record Response : Type := { projects : option (list Project) }.

(** [response.get('projects', default)] *)
Definition Response_get_projects (response : Response) (default : list Project)
  : list Project :=
  match projects response with
  | Some l => l
  | None => default
  end.

(** The answers of the collaborators, given the trace so far: loading the
    key file and building the client succeed or raise, executing the list
    request returns a response or raises. *)
Record Externals : Type := {
  from_service_account_file : list event → value → list string → option exn;
  discovery_build : list event → string → string → Credentials → option exn;
  projects_list_execute : list event → Service → string → result Response
}.

(** ** GcpEnvironment *)

Module GcpEnvironment.

(** *** Construction *)

(** [def __init__(self, name, **entries)] on the attribute dictionary, as
    called by [GcpEnvironment(name=env_name, **env_config)].  A keyword in
    [entries] called [name] repeats the keyword of the call, one called
    [self] collides with the receiver: either way the call raises
    [TypeError]. *)
Definition __init__ (name : string) (entries : gmap string value)
  : result (gmap string value) :=
  if bool_decide (is_Some (entries !! "name")) then
    Raise (TypeError "got multiple values for keyword argument 'name'")
  else if bool_decide (is_Some (entries !! "self")) then
    Raise (TypeError "__init__() got multiple values for argument 'self'")
  else
    let __dict__ : gmap string value :=
      <[ "service_account_path" := VNone ]>
      (<[ "service_account_project" := VNone ]>
      (<[ "_single_project_cache" := VDict ∅ ]>
      (<[ "_all_projects_cache" := VList [] ]>
      (<[ "organization" := VNone ]>
      (<[ "name" := VStr name ]> ∅))))) in
    (* self.__dict__.update(entries) *)
    Ok (entries ∪ __dict__).

(** The loop of [get_environments_from_config] over the items of
    [GCP_ENVS], with [gcp_envs] the dictionary built so far. *)
Fixpoint build_environments (items : list (string * gmap string value))
    (gcp_envs : gmap string (gmap string value))
  : result (gmap string (gmap string value)) :=
  match items with
  | [] => Ok gcp_envs
  | (env_name, env_config) :: rest =>
      match __init__ env_name env_config with
      | Raise e => Raise e
      | Ok env => build_environments rest (<[ env_name := env ]> gcp_envs)
      end
  end.

(** [GCP_ENVS] comes from [foremast.consts]; it is a parameter here.  The
    static method runs against the trace of requests like the other
    methods, and asks nothing of the collaborators.  The items are visited
    in the order of the finite map, not in the insertion order of the
    Python dictionary: the mapping returned does not depend on the order,
    only which of several failing constructor calls is the one that raises
    does. *)
Definition get_environments_from_config
    (GCP_ENVS : gmap string (gmap string value))
  : M (list event) (gmap string (gmap string value)) :=
  let gcp_envs : gmap string (gmap string value) := ∅ in
  lift (build_environments (map_to_list GCP_ENVS) gcp_envs).

(** *** The instance as the methods use it *)

Record t : Type := {
  name : string;
  organization : value;
  _all_projects_cache : list Project;
  _single_project_cache : gmap string Project;
  service_account_project : value;
  service_account_path : value
}.

Definition set_all_projects_cache (projects : list Project) (self : t) : t :=
  {| name := name self;
     organization := organization self;
     _all_projects_cache := projects;
     _single_project_cache := _single_project_cache self;
     service_account_project := service_account_project self;
     service_account_path := service_account_path self |}.

Definition set_single_project_cache (cache : gmap string Project) (self : t) : t :=
  {| name := name self;
     organization := organization self;
     _all_projects_cache := _all_projects_cache self;
     _single_project_cache := cache;
     service_account_project := service_account_project self;
     service_account_path := service_account_path self |}.

Record State : Type := { self : t; world : list event }.

Definition get_self : M State t := λ st, (Ok (self st), st).

Definition modify_self (f : t → t) : M State unit :=
  λ st, (Ok tt, {| self := f (self st); world := world st |}).

(** *** Reading an attribute dictionary as an instance *)

Definition as_dict (v : value) : option (gmap string value) :=
  match v with VDict d => Some d | _ => None end.

Definition as_dicts (v : value) : option (list (gmap string value)) :=
  match v with VList l => mapM as_dict l | _ => None end.

Definition as_dict_of_dicts (v : value) : option (gmap string (gmap string value)) :=
  match v with
  | VDict d =>
      items ← mapM (λ kv, v' ← as_dict kv.2; Some (kv.1, v')) (map_to_list d);
      Some (list_to_map items)
  | _ => None
  end.

Definition as_str (v : value) : option string :=
  match v with VStr s => Some s | _ => None end.

(** The names of the methods: an instance attribute of one of these
    names would hide the method. *)
Definition method_names : list string :=
  [ "get_credentials"; "get_all_projects"; "get_project";
    "_get_project_api_filter"; "get_environments_from_config" ].

Definition of_dict (__dict__ : gmap string value) : option t :=
  if bool_decide (Exists (λ m, is_Some (__dict__ !! m)) method_names) then None
  else
    n ← __dict__ !! "name" ≫= as_str;
    o ← __dict__ !! "organization";
    all ← __dict__ !! "_all_projects_cache" ≫= as_dicts;
    single ← __dict__ !! "_single_project_cache" ≫= as_dict_of_dicts;
    sproject ← __dict__ !! "service_account_project";
    spath ← __dict__ !! "service_account_path";
    Some {| name := n; organization := o; _all_projects_cache := all;
            _single_project_cache := single;
            service_account_project := sproject;
            service_account_path := spath |}.

Section Methods.

Variable X : Externals.

(** *** Calls to the collaborators: each is recorded in the trace. *)

Definition call_from_service_account_file (filename : value)
    (scopes : list string) : M State Credentials :=
  λ st,
    let w := world st in
    let st' := {| self := self st;
                  world := w ++ [FromServiceAccountFile filename scopes] |} in
    match from_service_account_file X w filename scopes with
    | Some e => (Raise e, st')
    | None => (Ok (ServiceAccountCredentials filename scopes), st')
    end.

Definition call_discovery_build (serviceName version : string)
    (credentials : Credentials) : M State Service :=
  λ st,
    let w := world st in
    let st' := {| self := self st;
                  world := w ++ [DiscoveryBuild serviceName version credentials] |} in
    match discovery_build X w serviceName version credentials with
    | Some e => (Raise e, st')
    | None => (Ok (Resource serviceName version credentials), st')
    end.

(** [service.projects().list(filter=project_filter).execute()] *)
Definition call_projects_list_execute (service : Service)
    (project_filter : string) : M State Response :=
  λ st,
    let w := world st in
    (projects_list_execute X w service project_filter,
     {| self := self st;
        world := w ++ [ProjectsListExecute service project_filter] |}).

(** *** The methods *)

Definition get_credentials : M State Credentials :=
  self ← get_self;
  call_from_service_account_file (service_account_path self)
    ["https://www.googleapis.com/auth/cloud-platform"].

Definition _get_project_api_filter (self : t) (name : option string) : string :=
  let base_filter := "labels.cloud_env:" +:+ GcpEnvironment.name self in
  match name with
  | Some name => base_filter +:+ (" name:" +:+ name +:+ "*")
  | None => base_filter
  end.

Definition get_all_projects : M State (list Project) :=
  self ← get_self;
  if bool_decide (0 < length (_all_projects_cache self)) then
    mret (_all_projects_cache self)
  else
    credentials ← get_credentials;
    service ← call_discovery_build "cloudresourcemanager" "v1" credentials;
    self ← get_self;
    let project_filter := _get_project_api_filter self None in
    response ← call_projects_list_execute service project_filter;
    let projects := Response_get_projects response [] in
    if bool_decide (length projects = 0) then
      raise (GoogleInfrastructureError
               (("No projects returned for filter " +:+ project_filter +:+ ". ")
                +:+ "A Foremast GCP Environment needs at least one project."))
    else
      modify_self (set_all_projects_cache projects);;
      mret projects.

(** [project['name']], to be appended to a string *)
Definition project_name (project : Project) : result string :=
  match project !! "name" with
  | None => Raise (KeyError "name")
  | Some (VStr s) => Ok s
  | Some _ => Raise (TypeError "can only concatenate str to str")
  end.

(** [for project in projects: error_message += " " + project['name']] *)
Fixpoint append_project_names (projects : list Project) (error_message : string)
  : result string :=
  match projects with
  | [] => Ok error_message
  | project :: rest =>
      match project_name project with
      | Raise e => Raise e
      | Ok n => append_project_names rest (error_message +:+ (" " +:+ n))
      end
  end.

Definition get_project (project_prefix : string) : M State Project :=
  self ← get_self;
  if bool_decide (is_Some (_single_project_cache self !! project_prefix)) then
    match _single_project_cache self !! project_prefix with
    | Some project => mret project
    | None => raise (KeyError project_prefix)
    end
  else
    credentials ← get_credentials;
    service ← call_discovery_build "cloudresourcemanager" "v1" credentials;
    self ← get_self;
    let project_filter := _get_project_api_filter self (Some project_prefix) in
    response ← call_projects_list_execute service project_filter;
    let projects := Response_get_projects response [] in
    if bool_decide (length projects = 0) then
      let error_message := "No projects returned for filter " +:+ project_filter in
      raise (GoogleInfrastructureError error_message)
    else if bool_decide (1 < length projects) then
      let error_message :=
        "More than one project returned for filter " +:+ project_filter
        +:+ ". Projects returned:" in
      error_message ← lift (append_project_names projects error_message);
      raise (GoogleInfrastructureError error_message)
    else
      match projects with
      | [] => raise (IndexError "list index out of range")
      | project :: _ =>
          self ← get_self;
          modify_self (set_single_project_cache
                         (<[ project_prefix := project ]> (_single_project_cache self)));;
          mret project
      end.

(** *** Sequences of calls *)

Inductive call : Type :=
| GetAllProjects
| GetProject (project_prefix : string).

(** One call by a client that goes on whether or not the call raised. *)
Definition run_call (c : call) (st : State) : State :=
  match c with
  | GetAllProjects => (get_all_projects st).2
  | GetProject project_prefix => (get_project project_prefix st).2
  end.

Definition run_calls (cs : list call) (st : State) : State :=
  foldl (λ st c, run_call c st) st cs.

End Methods.

End GcpEnvironment.


(** ** Notions used to state the properties *)

(** The checks that [get_project] could make on a record but does not:
    that its name starts with the prefix asked for, and that it carries the
    [cloud_env] label of the environment. *)
Definition name_starts_with (project_prefix : string) (project : Project) : bool :=
  match project !! "name" with
  | Some (VStr n) => String.prefix project_prefix n
  | _ => false
  end.

Definition has_cloud_env_label (env_name : string) (project : Project) : bool :=
  match project !! "labels" with
  | Some (VDict l) =>
      match l !! "cloud_env" with
      | Some (VStr e) => bool_decide (e = env_name)
      | _ => false
      end
  | _ => false
  end.

(** A response in which the [projects] member is always present: an absent
    member becomes the empty list. *)
Definition with_projects_key (response : Response) : Response :=
  {| projects := Some (Response_get_projects response []) |}.

(** The same collaborators, except that every response carries the
    [projects] member. *)
Definition always_with_projects_key (X : Externals) : Externals :=
  {| from_service_account_file := from_service_account_file X;
     discovery_build := discovery_build X;
     projects_list_execute := λ w service project_filter,
       match projects_list_execute X w service project_filter with
       | Ok response => Ok (with_projects_key response)
       | Raise e => Raise e
       end |}.

(** The default attributes of a new environment called [n]. *)
Definition default_attributes (n : string) : gmap string value :=
  <[ "service_account_path" := VNone ]>
  (<[ "service_account_project" := VNone ]>
  (<[ "_single_project_cache" := VDict ∅ ]>
  (<[ "_all_projects_cache" := VList [] ]>
  (<[ "organization" := VNone ]>
  (<[ "name" := VStr n ]> ∅))))).

(** A configuration none of whose override mappings uses the name of a
    parameter of the constructor as a key. *)
Definition no_reserved_key (GCP_ENVS : gmap string (gmap string value)) : Prop :=
  map_Forall (λ (_ : string) (env_config : gmap string value),
                ("name" ∉ dom env_config) ∧ ("self" ∉ dom env_config))
             GCP_ENVS.

(** The attributes that the constructor leaves for the methods: the two
    caches, and the methods themselves. *)
Definition internal_names : list string :=
  "_all_projects_cache" :: "_single_project_cache" :: GcpEnvironment.method_names.

(** ** Sample collaborators and data, for the worked instances *)

(** A directory whose answer depends on the filter only, reached with
    credentials that always load. *)
Definition static_directory (answer : string → Response) : Externals :=
  {| from_service_account_file := λ _ _ _, None;
     discovery_build := λ _ _ _ _, None;
     projects_list_execute := λ _ _ project_filter, Ok (answer project_filter) |}.

Definition named_project (n : string) : Project :=
  <[ "name" := VStr n ]> ∅.

(** The directory of the scenarios of the specification: environment
    "prod" has the projects "proj-a" and "proj-b"; one project has a name
    that starts with "proj-a-"; nothing else matches. *)
Definition prod_answer (project_filter : string) : Response :=
  if String.eqb project_filter "labels.cloud_env:prod" then
    {| projects := Some [named_project "proj-a"; named_project "proj-b"] |}
  else if String.eqb project_filter "labels.cloud_env:prod name:proj*" then
    {| projects := Some [named_project "proj-a"; named_project "proj-b"] |}
  else if String.eqb project_filter "labels.cloud_env:prod name:proj-a*" then
    {| projects := Some [named_project "proj-a-1"] |}
  else if String.eqb project_filter "labels.cloud_env:prod name:none*" then
    {| projects := Some [] |}
  else
    {| projects := None |}.

Definition prod_directory : Externals := static_directory prod_answer.

(** A directory that finds nothing, and one that answers every request
    with one record of another environment. *)
Definition empty_directory : Externals :=
  static_directory (λ _, {| projects := Some [] |}).

Definition stray_project : Project :=
  <[ "name" := VStr "billing" ]>
  (<[ "labels" := VDict (<[ "cloud_env" := VStr "dev" ]> ∅) ]> ∅).

Definition stray_directory : Externals :=
  static_directory (λ _, {| projects := Some [stray_project] |}).

Definition fresh_environment (n : string) : GcpEnvironment.t :=
  {| GcpEnvironment.name := n;
     GcpEnvironment.organization := VNone;
     GcpEnvironment._all_projects_cache := [];
     GcpEnvironment._single_project_cache := ∅;
     GcpEnvironment.service_account_project := VNone;
     GcpEnvironment.service_account_path := VNone |}.

Definition fresh_state (n : string) : GcpEnvironment.State :=
  {| GcpEnvironment.self := fresh_environment n; GcpEnvironment.world := [] |}.

(** A directory one of whose records has no name, and collaborators whose
    key file cannot be read. *)
Definition unnamed_directory : Externals :=
  static_directory (λ _, {| projects := Some [named_project "proj-a"; ∅] |}).

Definition locked_directory : Externals :=
  {| from_service_account_file := λ _ _ _, Some (CollaboratorError "key file not found");
     discovery_build := λ _ _ _ _, None;
     projects_list_execute := λ _ _ _, Ok {| projects := None |} |}.

Definition keyed_overrides : gmap string value :=
  <[ "organization" := VStr "acme" ]>
  (<[ "service_account_path" := VStr "/etc/gcp/prod.json" ]> ∅).

(** Two configurations: one as the specification has it, one whose
    override mapping names the environment itself. *)
Definition sample_config : gmap string (gmap string value) :=
  <[ "prod" := <[ "organization" := VStr "acme" ]> (<[ "region" := VStr "us" ]> ∅) ]>
  (<[ "stage" := ∅ ]> ∅).

Definition renaming_config : gmap string (gmap string value) :=
  <[ "prod" := <[ "name" := VStr "production" ]> ∅ ]> ∅.

(** ** Running the methods *)

Definition scopes : list string := ["https://www.googleapis.com/auth/cloud-platform"].

Definition credentials_of (self : GcpEnvironment.t) : Credentials :=
  ServiceAccountCredentials (GcpEnvironment.service_account_path self) scopes.

Definition service_of (self : GcpEnvironment.t) : Service :=
  Resource "cloudresourcemanager" "v1" (credentials_of self).

(** The three requests a lookup makes when it does not answer from its
    cache. *)
Definition lookup_events (self : GcpEnvironment.t) (project_filter : string)
  : list event :=
  [ FromServiceAccountFile (GcpEnvironment.service_account_path self) scopes;
    DiscoveryBuild "cloudresourcemanager" "v1" (credentials_of self);
    ProjectsListExecute (service_of self) project_filter ].

Definition after_lookup (st : GcpEnvironment.State) (project_filter : string)
  : GcpEnvironment.State :=
  {| GcpEnvironment.self := GcpEnvironment.self st;
     GcpEnvironment.world :=
       GcpEnvironment.world st ++ lookup_events (GcpEnvironment.self st) project_filter |}.

(** ** Notions used to state the further properties *)

(** The text of the two errors of the module. *)
Definition no_projects_in_environment (project_filter : string) : string :=
  ("No projects returned for filter " +:+ project_filter +:+ ". ")
  +:+ "A Foremast GCP Environment needs at least one project.".

Definition ambiguous_header (project_filter : string) : string :=
  "More than one project returned for filter " +:+ project_filter
  +:+ ". Projects returned:".

(** One of the three requests of a lookup raises [e]: the requests before
    it went through, the requests after it are not made. *)
Definition collaborator_raises (X : Externals) (st : GcpEnvironment.State)
    (project_filter : string) (e : exn) : Prop :=
  let self := GcpEnvironment.self st in
  let path := GcpEnvironment.service_account_path self in
  let w := GcpEnvironment.world st in
  let w1 := w ++ [FromServiceAccountFile path scopes] in
  let w2 := w1 ++ [DiscoveryBuild "cloudresourcemanager" "v1" (credentials_of self)] in
  from_service_account_file X w path scopes = Some e
  ∨ (from_service_account_file X w path scopes = None
     ∧ discovery_build X w1 "cloudresourcemanager" "v1" (credentials_of self) = Some e)
  ∨ (from_service_account_file X w path scopes = None
     ∧ discovery_build X w1 "cloudresourcemanager" "v1" (credentials_of self) = None
     ∧ projects_list_execute X w2 (service_of self) project_filter = Raise e).

(** The list requests of a trace, counted. *)
Definition is_list_request (e : event) : bool :=
  match e with ProjectsListExecute _ _ => true | _ => false end.

Fixpoint list_requests (w : list event) : nat :=
  match w with
  | [] => 0
  | e :: w' => (if is_list_request e then 1 else 0) + list_requests w'
  end.

(** The prefixes a sequence of calls asks for. *)
Fixpoint requested_prefixes (cs : list GcpEnvironment.call) : list string :=
  match cs with
  | [] => []
  | GcpEnvironment.GetAllProjects :: cs' => requested_prefixes cs'
  | GcpEnvironment.GetProject project_prefix :: cs' =>
      project_prefix :: requested_prefixes cs'
  end.

(** A record with a name that can be appended to a message. *)
Definition has_name (project : Project) : Prop :=
  ∃ n, project !! "name" = Some (VStr n).

(** The names, each after a space, as the message of the ambiguous lookup
    lists them. *)
Fixpoint names_line (names : list string) : string :=
  match names with
  | [] => ""
  | n :: names' => " " +:+ n +:+ names_line names'
  end.

(** What the methods never assign: the name and the settings. *)
Definition settings (self : GcpEnvironment.t) : string * value * value * value :=
  (GcpEnvironment.name self, GcpEnvironment.organization self,
   GcpEnvironment.service_account_project self,
   GcpEnvironment.service_account_path self).

Section Running.

Import GcpEnvironment.

Variable X : Externals.

(** In state [st] the key file loads, the client is built and the list
    request for [project_filter] is answered with [response]. *)
Definition remote_responds (st : State) (project_filter : string)
    (response : Response) : Prop :=
  let w := world st in
  let w1 := w ++ [FromServiceAccountFile (service_account_path (self st)) scopes] in
  let w2 := w1 ++ [DiscoveryBuild "cloudresourcemanager" "v1" (credentials_of (self st))] in
  from_service_account_file X w (service_account_path (self st)) scopes = None
  ∧ discovery_build X w1 "cloudresourcemanager" "v1" (credentials_of (self st)) = None
  ∧ projects_list_execute X w2 (service_of (self st)) project_filter = Ok response.

(** The part the two lookups have in common: load the key file, build the
    client, execute the list request. *)
Definition remote_lookup (project_filter : string) : M State Response :=
  credentials ← get_credentials X;
  service ← call_discovery_build X "cloudresourcemanager" "v1" credentials;
  call_projects_list_execute X service project_filter.

(** What [get_all_projects] does with the response. *)
Definition all_projects_continuation (project_filter : string)
    (response : Response) : M State (list Project) :=
  let projects := Response_get_projects response [] in
  if bool_decide (length projects = 0) then
    raise (GoogleInfrastructureError
             (("No projects returned for filter " +:+ project_filter +:+ ". ")
              +:+ "A Foremast GCP Environment needs at least one project."))
  else
    modify_self (set_all_projects_cache projects);;
    mret projects.

(** What [get_project] does with the response. *)
Definition project_continuation (project_prefix project_filter : string)
    (response : Response) : M State Project :=
  let projects := Response_get_projects response [] in
  if bool_decide (length projects = 0) then
    raise (GoogleInfrastructureError
             ("No projects returned for filter " +:+ project_filter))
  else if bool_decide (1 < length projects) then
    error_message ←
      lift (append_project_names projects
              ("More than one project returned for filter " +:+ project_filter
               +:+ ". Projects returned:"));
    raise (GoogleInfrastructureError error_message)
  else
    match projects with
    | [] => raise (IndexError "list index out of range")
    | project :: _ =>
        self ← get_self;
        modify_self (set_single_project_cache
                       (<[ project_prefix := project ]> (_single_project_cache self)));;
        mret project
    end.

(** ** Strings *)

Lemma append_cons (c : Ascii.ascii) (s t : string) :
  String c s +:+ t = String c (s +:+ t).
Proof. reflexivity. Qed.

Lemma append_assoc (s1 s2 s3 : string) : (s1 +:+ s2) +:+ s3 = s1 +:+ (s2 +:+ s3).
Proof. induction s1 as [|c s1 IH]; [done|]. rewrite !append_cons. by f_equal. Qed.

Lemma append_empty_r (s : string) : s +:+ "" = s.
Proof. induction s as [|c s IH]; [done|]. rewrite append_cons. by f_equal. Qed.

Lemma occurs_in_here (before s after : string) :
  occurs_in s (before +:+ s +:+ after).
Proof. by exists before, after. Qed.

Lemma occurs_in_refl (s : string) : occurs_in s s.
Proof. exists "", "". by rewrite append_empty_r. Qed.

Lemma occurs_in_app_l (s t u : string) : occurs_in s t → occurs_in s (t +:+ u).
Proof.
  intros (b & a & ->). exists b, (a +:+ u). by rewrite !append_assoc.
Qed.

Lemma occurs_in_app_r (s t u : string) : occurs_in s t → occurs_in s (u +:+ t).
Proof.
  intros (b & a & ->). exists (u +:+ b), a. by rewrite !append_assoc.
Qed.

(** ** The common part of the lookups *)

Ltac unfold_lookup :=
  unfold remote_lookup, get_credentials, mbind, M_bind, get_self,
    call_from_service_account_file, call_discovery_build,
    call_projects_list_execute;
  fold scopes.

Lemma remote_lookup_self (project_filter : string) (st : State) :
  self (remote_lookup project_filter st).2 = self st.
Proof.
  unfold_lookup.
  destruct (from_service_account_file X _ _ _); [done|].
  cbn [self world]. by destruct (discovery_build X _ _ _ _).
Qed.

(** A lookup always asks for the key file first and never asks for more
    than the three requests of [lookup_events]. *)
Lemma remote_lookup_world (project_filter : string) (st : State) :
  ∃ evs,
    world (remote_lookup project_filter st).2 = world st ++ evs
    ∧ evs `prefix_of` lookup_events (self st) project_filter
    ∧ evs ≠ [].
Proof.
  unfold_lookup. unfold lookup_events.
  destruct (from_service_account_file X _ _ _).
  { eexists [_]. split_and!; [done| |done]. by eexists. }
  cbn [self world]. fold (credentials_of (self st)).
  destruct (discovery_build X _ _ _ _).
  { eexists [_; _]. cbn [snd self world]. rewrite <- (assoc_L (++)).
    split_and!; [done| |done]. by eexists. }
  cbn [snd self world]. fold (service_of (self st)).
  eexists [_; _; _]. rewrite <- !(assoc_L (++)).
  split_and!; [done| |done]. by eexists [].
Qed.

Lemma remote_lookup_Ok (project_filter : string) (st : State) (response : Response) :
  (remote_lookup project_filter st).1 = Ok response →
  remote_responds st project_filter response.
Proof.
  unfold_lookup. unfold remote_responds. cbv zeta.
  destruct (from_service_account_file X _ _ _); [done|].
  cbn [self world]. fold (credentials_of (self st)).
  destruct (discovery_build X _ _ _ _); [done|].
  cbn [fst self world]. fold (service_of (self st)). done.
Qed.

Lemma remote_lookup_responds (project_filter : string) (st : State)
    (response : Response) :
  remote_responds st project_filter response →
  remote_lookup project_filter st = (Ok response, after_lookup st project_filter).
Proof.
  intros (Hcred & Hbuild & Hexec).
  unfold_lookup. unfold after_lookup, lookup_events.
  rewrite Hcred. cbn [self world].
  fold (credentials_of (self st)). rewrite Hbuild. cbn [self world].
  fold (service_of (self st)). rewrite Hexec.
  by rewrite <- !(assoc_L (++)).
Qed.

Lemma get_all_projects_unfold (st : State) :
  get_all_projects X st =
    if bool_decide (0 < length (_all_projects_cache (self st))) then
      (Ok (_all_projects_cache (self st)), st)
    else
      let project_filter := _get_project_api_filter (self st) None in
      (remote_lookup project_filter
         ≫= all_projects_continuation project_filter) st.
Proof.
  unfold get_all_projects, all_projects_continuation. unfold_lookup.
  case_bool_decide; [done|].
  destruct (from_service_account_file X _ _ _); [done|].
  cbn [self world]. by destruct (discovery_build X _ _ _ _).
Qed.

Lemma get_project_unfold (project_prefix : string) (st : State) :
  get_project X project_prefix st =
    match _single_project_cache (self st) !! project_prefix with
    | Some project => (Ok project, st)
    | None =>
        let project_filter := _get_project_api_filter (self st) (Some project_prefix) in
        (remote_lookup project_filter
           ≫= project_continuation project_prefix project_filter) st
    end.
Proof.
  unfold get_project, project_continuation. unfold_lookup.
  destruct (_single_project_cache (self st) !! project_prefix) as [project|] eqn:Hc.
  { by rewrite bool_decide_eq_true_2. }
  rewrite bool_decide_eq_false_2 by (by intros [? ?]).
  destruct (from_service_account_file X _ _ _); [done|].
  cbn [self world]. by destruct (discovery_build X _ _ _ _).
Qed.

(** ** What a call leaves of the caches *)

Lemma get_all_projects_hit (st : State) :
  0 < length (_all_projects_cache (self st)) →
  get_all_projects X st = (Ok (_all_projects_cache (self st)), st).
Proof.
  intros Hlen. rewrite get_all_projects_unfold. by rewrite bool_decide_eq_true_2.
Qed.

Lemma get_project_hit (project_prefix : string) (project : Project) (st : State) :
  _single_project_cache (self st) !! project_prefix = Some project →
  get_project X project_prefix st = (Ok project, st).
Proof. intros Hc. rewrite get_project_unfold. by rewrite Hc. Qed.

(** A successful [get_all_projects] returns a non-empty list, which is the
    all-projects cache afterwards. *)
Lemma get_all_projects_Ok (st st' : State) (l : list Project) :
  get_all_projects X st = (Ok l, st') →
  0 < length l ∧ _all_projects_cache (self st') = l.
Proof.
  rewrite get_all_projects_unfold. case_bool_decide as Hlen.
  { intros [= <- <-]. done. }
  cbv zeta. unfold mbind, M_bind.
  destruct (remote_lookup _ st) as [[response|e] st1]; [|done].
  unfold all_projects_continuation. cbv zeta.
  case_bool_decide as Hzero; [done|].
  unfold mbind, M_bind, modify_self, mret, M_ret.
  intros [= <- <-]. cbn [self _all_projects_cache set_all_projects_cache].
  split; [lia|done].
Qed.

Lemma get_all_projects_single_cache (st : State) :
  _single_project_cache (self (get_all_projects X st).2)
  = _single_project_cache (self st).
Proof.
  rewrite get_all_projects_unfold. case_bool_decide; [done|].
  cbv zeta. unfold mbind, M_bind.
  pose proof (remote_lookup_self (_get_project_api_filter (self st) None) st) as Hself.
  destruct (remote_lookup _ st) as [[response|e] st1]; cbn [snd] in *;
    [|by rewrite Hself].
  unfold all_projects_continuation. cbv zeta.
  case_bool_decide; [by rewrite <- Hself|].
  unfold mbind, M_bind, modify_self, mret, M_ret.
  cbn [snd self _single_project_cache set_all_projects_cache]. by rewrite Hself.
Qed.

Lemma get_project_all_cache (project_prefix : string) (st : State) :
  _all_projects_cache (self (get_project X project_prefix st).2)
  = _all_projects_cache (self st).
Proof.
  rewrite get_project_unfold.
  destruct (_single_project_cache (self st) !! project_prefix); [done|].
  cbv zeta. unfold mbind, M_bind.
  pose proof (remote_lookup_self
                (_get_project_api_filter (self st) (Some project_prefix)) st) as Hself.
  destruct (remote_lookup _ st) as [[response|e] st1]; cbn [snd] in *;
    [|by rewrite Hself].
  unfold project_continuation. cbv zeta.
  case_bool_decide; [by rewrite <- Hself|].
  case_bool_decide.
  { unfold mbind, M_bind, lift, raise.
    destruct (append_project_names _ _); by rewrite <- Hself. }
  destruct (Response_get_projects response []) as [|project rest];
    [by rewrite <- Hself|].
  unfold mbind, M_bind, modify_self, mret, M_ret, get_self.
  cbn [snd self _all_projects_cache set_single_project_cache]. by rewrite Hself.
Qed.

(** An entry of the single-project cache is never removed or replaced. *)
Lemma get_project_single_cache (project_prefix k : string) (project : Project)
    (st : State) :
  _single_project_cache (self st) !! k = Some project →
  _single_project_cache (self (get_project X project_prefix st).2) !! k
  = Some project.
Proof.
  intros Hk. rewrite get_project_unfold.
  destruct (_single_project_cache (self st) !! project_prefix) eqn:Hc; [done|].
  cbv zeta. unfold mbind, M_bind.
  pose proof (remote_lookup_self
                (_get_project_api_filter (self st) (Some project_prefix)) st) as Hself.
  destruct (remote_lookup _ st) as [[response|e] st1]; cbn [snd] in Hself;
    rewrite <- Hself in Hk, Hc; [|exact Hk].
  unfold project_continuation. cbv zeta.
  case_bool_decide; [exact Hk|].
  case_bool_decide.
  { unfold mbind, M_bind, lift, raise.
    destruct (append_project_names _ _); exact Hk. }
  destruct (Response_get_projects response []) as [|found rest]; [exact Hk|].
  unfold mbind, M_bind, modify_self, mret, M_ret, get_self.
  cbn [snd self _single_project_cache set_single_project_cache].
  rewrite lookup_insert_ne; [done|]. congruence.
Qed.

Lemma run_calls_cons (c : call) (cs : list call) (st : State) :
  run_calls X (c :: cs) st = run_calls X cs (run_call X c st).
Proof. reflexivity. Qed.

(** Once the all-projects cache is not empty, no call changes it. *)
Lemma run_call_all_cache (c : call) (st : State) :
  0 < length (_all_projects_cache (self st)) →
  _all_projects_cache (self (run_call X c st)) = _all_projects_cache (self st).
Proof.
  intros Hlen. destruct c as [|project_prefix]; cbn [run_call].
  - by rewrite get_all_projects_hit.
  - apply get_project_all_cache.
Qed.

Lemma run_calls_all_cache (cs : list call) (st : State) :
  0 < length (_all_projects_cache (self st)) →
  _all_projects_cache (self (run_calls X cs st)) = _all_projects_cache (self st).
Proof.
  revert st. induction cs as [|c cs IH]; intros st Hlen; [done|].
  rewrite run_calls_cons, IH; rewrite run_call_all_cache; done.
Qed.

Lemma run_call_single_cache (c : call) (k : string) (project : Project) (st : State) :
  _single_project_cache (self st) !! k = Some project →
  _single_project_cache (self (run_call X c st)) !! k = Some project.
Proof.
  intros Hk. destruct c as [|project_prefix]; cbn [run_call].
  - by rewrite get_all_projects_single_cache.
  - by apply get_project_single_cache.
Qed.

Lemma run_calls_single_cache (cs : list call) (k : string) (project : Project)
    (st : State) :
  _single_project_cache (self st) !! k = Some project →
  _single_project_cache (self (run_calls X cs st)) !! k = Some project.
Proof.
  revert st. induction cs as [|c cs IH]; intros st Hk; [done|].
  rewrite run_calls_cons. by apply IH, run_call_single_cache.
Qed.

(** ** What a call adds to the trace *)

Lemma get_all_projects_world (st : State) :
  ∃ evs,
    world (get_all_projects X st).2 = world st ++ evs
    ∧ evs `prefix_of` lookup_events (self st) (_get_project_api_filter (self st) None).
Proof.
  rewrite get_all_projects_unfold. case_bool_decide.
  { exists []. rewrite (right_id_L [] (++)). split; [done|]. by eexists. }
  cbv zeta. unfold mbind, M_bind.
  destruct (remote_lookup_world (_get_project_api_filter (self st) None) st)
    as (evs & Hw & Hpre & _).
  exists evs. split; [|done]. rewrite <- Hw.
  destruct (remote_lookup _ st) as [[response|e] st1]; [|done].
  unfold all_projects_continuation. cbv zeta. by case_bool_decide.
Qed.

Lemma get_project_world (project_prefix : string) (st : State) :
  ∃ evs,
    world (get_project X project_prefix st).2 = world st ++ evs
    ∧ evs `prefix_of`
        lookup_events (self st) (_get_project_api_filter (self st) (Some project_prefix)).
Proof.
  rewrite get_project_unfold.
  destruct (_single_project_cache (self st) !! project_prefix).
  { exists []. rewrite (right_id_L [] (++)). split; [done|]. by eexists. }
  cbv zeta. unfold mbind, M_bind.
  destruct (remote_lookup_world
              (_get_project_api_filter (self st) (Some project_prefix)) st)
    as (evs & Hw & Hpre & _).
  exists evs. split; [|done]. rewrite <- Hw.
  destruct (remote_lookup _ st) as [[response|e] st1]; [|done].
  unfold project_continuation. cbv zeta. case_bool_decide; [done|].
  case_bool_decide.
  { unfold mbind, M_bind, lift. by destruct (append_project_names _ _). }
  by destruct (Response_get_projects response []).
Qed.

Lemma list_request_in_lookup (evs : list event) (self : t)
    (project_filter f : string) (service : Service) :
  evs `prefix_of` lookup_events self project_filter →
  ProjectsListExecute service f ∈ evs →
  service = service_of self ∧ f = project_filter.
Proof.
  intros [k Hk] Hin.
  assert (ProjectsListExecute service f ∈ lookup_events self project_filter) as Hin'.
  { rewrite Hk. apply elem_of_app. by left. }
  unfold lookup_events in Hin'.
  rewrite !elem_of_cons, elem_of_nil in Hin'.
  destruct Hin' as [|[|[|]]]; [done|done| |done]. by simplify_eq.
Qed.

(** ** The lookups on a cache miss *)

Lemma get_all_projects_miss (st : State) (response : Response) :
  _all_projects_cache (self st) = [] →
  remote_responds st (_get_project_api_filter (self st) None) response →
  get_all_projects X st =
    all_projects_continuation (_get_project_api_filter (self st) None) response
      (after_lookup st (_get_project_api_filter (self st) None)).
Proof.
  intros Hcache Hresp. rewrite get_all_projects_unfold, Hcache.
  rewrite bool_decide_eq_false_2 by (simpl; lia).
  cbv zeta. unfold mbind, M_bind. by rewrite (remote_lookup_responds _ _ _ Hresp).
Qed.

Lemma get_project_miss (project_prefix : string) (st : State) (response : Response) :
  _single_project_cache (self st) !! project_prefix = None →
  remote_responds st (_get_project_api_filter (self st) (Some project_prefix)) response →
  get_project X project_prefix st =
    project_continuation project_prefix
      (_get_project_api_filter (self st) (Some project_prefix)) response
      (after_lookup st (_get_project_api_filter (self st) (Some project_prefix))).
Proof.
  intros Hcache Hresp. rewrite get_project_unfold, Hcache.
  cbv zeta. unfold mbind, M_bind. by rewrite (remote_lookup_responds _ _ _ Hresp).
Qed.

(** The loop that lists the names keeps what the message already says and
    adds every name. *)
Lemma append_project_names_named (projects : list Project) (error_message : string) :
  Forall (λ project : Project, ∃ n, project !! "name" = Some (VStr n)) projects →
  ∃ msg,
    append_project_names projects error_message = Ok msg
    ∧ (∀ s, occurs_in s error_message → occurs_in s msg)
    ∧ (∀ (project : Project) n,
         project ∈ projects → project !! "name" = Some (VStr n) → occurs_in n msg).
Proof.
  intros Hnamed. revert error_message.
  induction Hnamed as [|project rest [n Hn] _ IH]; intros error_message.
  { exists error_message. split_and!; [done|done|]. intros ?? Hin. by inv Hin. }
  cbn [append_project_names]. unfold project_name. rewrite Hn.
  destruct (IH (error_message +:+ (" " +:+ n))) as (msg & Hmsg & Hkeep & Hnames).
  exists msg. split_and!; [done| |].
  - intros s Hs. by apply Hkeep, occurs_in_app_l.
  - intros project' n' Hin Hn'. apply elem_of_cons in Hin as [->|Hin].
    + rewrite Hn in Hn'. injection Hn' as <-.
      apply Hkeep, occurs_in_app_r, occurs_in_app_r, occurs_in_refl.
    + by eapply Hnames.
Qed.

(** A record without a [name] member stops the loop: [project['name']]
    raises before the message is complete. *)
Lemma append_project_names_nameless (project : Project) (rest : list Project)
    (error_message : string) :
  project !! "name" = None →
  append_project_names (project :: rest) error_message = Raise (KeyError "name").
Proof.
  intros Hnone. cbn [append_project_names]. unfold project_name. by rewrite Hnone.
Qed.

(** ** Properties of the specification *)

(** C1.  Once the all-projects cache of an environment is not empty, every
    later [get_all_projects], whatever calls came in between, returns the
    cached sequence and leaves the state, the trace of requests included,
    as it found it: the remote service is not contacted.  After a
    successful first call the second call, and every later one, returns
    the sequence the first call returned. *)
Theorem get_all_projects_serves_from_cache (st : State) (later : list call) :
  (0 < length (_all_projects_cache (self st)) →
   let st' := run_calls X later st in
   get_all_projects X st' = (Ok (_all_projects_cache (self st)), st'))
  ∧ (∀ first st1,
       get_all_projects X st = (Ok first, st1) →
       get_all_projects X st1 = (Ok first, st1)
       ∧ let st' := run_calls X later st1 in
         get_all_projects X st' = (Ok first, st')).
Proof.
  assert (∀ s : State, 0 < length (_all_projects_cache (self s)) →
            get_all_projects X (run_calls X later s)
            = (Ok (_all_projects_cache (self s)), run_calls X later s)) as Hlater.
  { intros s Hlen.
    rewrite <- (run_calls_all_cache later s Hlen).
    apply get_all_projects_hit. by rewrite run_calls_all_cache. }
  split; [exact (Hlater st)|].
  intros first st1 Hfirst.
  destruct (get_all_projects_Ok _ _ _ Hfirst) as [Hlen Hcache].
  split.
  - rewrite <- Hcache. apply get_all_projects_hit. by rewrite Hcache.
  - cbv zeta. rewrite <- Hcache. apply Hlater. by rewrite Hcache.
Qed.

(** C2.  With an empty all-projects cache and a response without projects,
    [get_all_projects] raises [GoogleInfrastructureError] (the error of the
    module that the specification calls the EnvironmentConfigurationError
    kind); the message carries the filter and says that at least one
    project is needed.  The instance is unchanged, so the cache is still
    empty, and the next call goes to the collaborators again: it adds
    requests to the trace, and when the key file loads and the client is
    built it executes the list request once more. *)
Theorem get_all_projects_no_projects (st : State) (response : Response) :
  let project_filter := _get_project_api_filter (self st) None in
  let msg :=
    ("No projects returned for filter " +:+ project_filter +:+ ". ")
    +:+ "A Foremast GCP Environment needs at least one project." in
  let st' := after_lookup st project_filter in
  _all_projects_cache (self st) = [] →
  remote_responds st project_filter response →
  Response_get_projects response [] = [] →
  get_all_projects X st = (Raise (GoogleInfrastructureError msg), st')
  ∧ occurs_in project_filter msg
  ∧ occurs_in "needs at least one project" msg
  ∧ self st' = self st
  ∧ _all_projects_cache (self st') = []
  ∧ (∃ evs, world (get_all_projects X st').2 = world st' ++ evs ∧ evs ≠ [])
  ∧ (∀ response',
       remote_responds st' project_filter response' →
       world (get_all_projects X st').2
       = world st' ++ lookup_events (self st') project_filter).
Proof.
  intros project_filter msg st' Hcache Hresp Hzero.
  split_and!.
  - rewrite (get_all_projects_miss _ _ Hcache Hresp).
    unfold all_projects_continuation. cbv zeta. rewrite Hzero.
    by rewrite bool_decide_eq_true_2.
  - apply occurs_in_app_l, occurs_in_here.
  - apply occurs_in_app_r. by exists "A Foremast GCP Environment ", ".".
  - done.
  - done.
  - subst st'. rewrite get_all_projects_unfold. cbn [self after_lookup]. rewrite Hcache.
    rewrite bool_decide_eq_false_2 by (simpl; lia).
    cbv zeta. unfold mbind, M_bind.
    destruct (remote_lookup_world (_get_project_api_filter (self st) None)
                (after_lookup st project_filter))
      as (evs & Hw & _ & Hne).
    exists evs. split; [|done]. rewrite <- Hw.
    destruct (remote_lookup _ (after_lookup st project_filter)) as [[r|e] st1]; [|done].
    unfold all_projects_continuation. cbv zeta. by case_bool_decide.
  - intros response' Hresp'.
    rewrite (get_all_projects_miss st' response' Hcache Hresp').
    unfold all_projects_continuation. cbv zeta. by case_bool_decide.
Qed.

(** C3.  For a prefix that is not in the single-project cache and a
    response with two or more projects, each with its name,
    [get_project] raises [GoogleInfrastructureError] (the
    AmbiguousProjectError kind of the specification); the message contains
    the name of every project returned, and the filter.  The instance is
    unchanged: the cache has no entry for the prefix. *)
Theorem get_project_ambiguous (st : State) (project_prefix : string)
    (response : Response) :
  let project_filter := _get_project_api_filter (self st) (Some project_prefix) in
  let returned := Response_get_projects response [] in
  let st' := after_lookup st project_filter in
  _single_project_cache (self st) !! project_prefix = None →
  remote_responds st project_filter response →
  2 ≤ length returned →
  Forall (λ project : Project, ∃ n, project !! "name" = Some (VStr n)) returned →
  ∃ msg,
    get_project X project_prefix st = (Raise (GoogleInfrastructureError msg), st')
    ∧ (∀ (project : Project) n,
         project ∈ returned → project !! "name" = Some (VStr n) → occurs_in n msg)
    ∧ occurs_in project_filter msg
    ∧ self st' = self st
    ∧ _single_project_cache (self st') !! project_prefix = None.
Proof.
  intros project_filter returned st' Hcache Hresp Hlen Hnamed.
  destruct (append_project_names_named returned
              ("More than one project returned for filter " +:+ project_filter
               +:+ ". Projects returned:") Hnamed)
    as (msg & Hmsg & Hkeep & Hnames).
  exists msg. split_and!; [|done| |done|done].
  - rewrite (get_project_miss _ _ _ Hcache Hresp).
    unfold project_continuation. cbv zeta. fold returned. fold project_filter.
    rewrite bool_decide_eq_false_2 by lia.
    rewrite bool_decide_eq_true_2 by lia.
    unfold mbind, M_bind, lift, raise. by rewrite Hmsg.
  - apply Hkeep, occurs_in_here.
Qed.

(** C4.  For a prefix that is not in the single-project cache and a
    response without projects, [get_project] raises
    [GoogleInfrastructureError] (the EnvironmentConfigurationError kind of
    the specification) with the message "No projects returned for filter"
    followed by the filter that was used. *)
Theorem get_project_no_projects (st : State) (project_prefix : string)
    (response : Response) :
  let project_filter := _get_project_api_filter (self st) (Some project_prefix) in
  let msg := "No projects returned for filter " +:+ project_filter in
  _single_project_cache (self st) !! project_prefix = None →
  remote_responds st project_filter response →
  Response_get_projects response [] = [] →
  get_project X project_prefix st
  = (Raise (GoogleInfrastructureError msg), after_lookup st project_filter)
  ∧ occurs_in project_filter msg
  ∧ ProjectsListExecute (service_of (self st)) project_filter
    ∈ world (after_lookup st project_filter).
Proof.
  intros project_filter msg Hcache Hresp Hzero. split_and!.
  - rewrite (get_project_miss _ _ _ Hcache Hresp).
    unfold project_continuation. cbv zeta. rewrite Hzero.
    by rewrite bool_decide_eq_true_2.
  - exists "No projects returned for filter ", "". by rewrite append_empty_r.
  - cbn [world after_lookup]. unfold lookup_events.
    rewrite elem_of_app, !elem_of_cons. tauto.
Qed.

(** C5.  When the response for the prefix filter holds exactly one
    project, [get_project] stores it in the single-project cache under the
    prefix itself and returns it; every later call with that prefix,
    whatever calls came in between, returns the cached project and leaves
    the state, the trace of requests included, as it found it. *)
Theorem get_project_stores_and_reuses (st : State) (project_prefix : string)
    (response : Response) (project : Project) (later : list call) :
  let project_filter := _get_project_api_filter (self st) (Some project_prefix) in
  let st1 :=
    {| self := set_single_project_cache
                 (<[ project_prefix := project ]> (_single_project_cache (self st)))
                 (self st);
       world := world st ++ lookup_events (self st) project_filter |} in
  _single_project_cache (self st) !! project_prefix = None →
  remote_responds st project_filter response →
  Response_get_projects response [] = [project] →
  get_project X project_prefix st = (Ok project, st1)
  ∧ _single_project_cache (self st1) !! project_prefix = Some project
  ∧ get_project X project_prefix st1 = (Ok project, st1)
  ∧ let st' := run_calls X later st1 in
    get_project X project_prefix st' = (Ok project, st').
Proof.
  intros project_filter st1 Hcache Hresp Hone.
  assert (_single_project_cache (self st1) !! project_prefix = Some project) as Hst1.
  { cbn [st1 self _single_project_cache set_single_project_cache].
    apply lookup_insert_eq. }
  split_and!; [|done| |].
  - rewrite (get_project_miss _ _ _ Hcache Hresp).
    unfold project_continuation. cbv zeta. rewrite Hone.
    rewrite bool_decide_eq_false_2 by (simpl; lia).
    by rewrite bool_decide_eq_false_2 by (simpl; lia).
  - by apply get_project_hit.
  - cbv zeta. by apply get_project_hit, run_calls_single_cache.
Qed.

(** C6.  For the environment named [n] the filter of [get_all_projects] is
    "labels.cloud_env:n" and the filter of [get_project p] is
    "labels.cloud_env:n name:p*": these are the values of
    [_get_project_api_filter], every list request either method adds to the
    trace carries its filter, and on a cache miss answered by the remote
    service the request with that filter is the one executed. *)
Theorem project_api_filters (st : State) (p : string) :
  let n := name (self st) in
  let all_filter := "labels.cloud_env:" +:+ n in
  let prefix_filter := "labels.cloud_env:" +:+ n +:+ " name:" +:+ p +:+ "*" in
  _get_project_api_filter (self st) None = all_filter
  ∧ _get_project_api_filter (self st) (Some p) = prefix_filter
  ∧ (∃ evs, world (get_all_projects X st).2 = world st ++ evs
            ∧ ∀ service f, ProjectsListExecute service f ∈ evs → f = all_filter)
  ∧ (∃ evs, world (get_project X p st).2 = world st ++ evs
            ∧ ∀ service f, ProjectsListExecute service f ∈ evs → f = prefix_filter)
  ∧ (∀ response,
       _all_projects_cache (self st) = [] →
       remote_responds st all_filter response →
       world (get_all_projects X st).2
       = world st ++ lookup_events (self st) all_filter)
  ∧ (∀ response,
       _single_project_cache (self st) !! p = None →
       remote_responds st prefix_filter response →
       world (get_project X p st).2
       = world st ++ lookup_events (self st) prefix_filter).
Proof.
  intros n all_filter prefix_filter.
  assert (_get_project_api_filter (self st) None = all_filter) as Hall by done.
  assert (_get_project_api_filter (self st) (Some p) = prefix_filter) as Hprefix.
  { unfold _get_project_api_filter, prefix_filter. by rewrite append_assoc. }
  split_and!; [done|done| | | |].
  - destruct (get_all_projects_world st) as (evs & Hw & Hpre).
    exists evs. split; [done|]. intros service f Hin.
    rewrite Hall in Hpre. by destruct (list_request_in_lookup _ _ _ _ _ Hpre Hin).
  - destruct (get_project_world p st) as (evs & Hw & Hpre).
    exists evs. split; [done|]. intros service f Hin.
    rewrite Hprefix in Hpre. by destruct (list_request_in_lookup _ _ _ _ _ Hpre Hin).
  - intros response Hcache Hresp. rewrite <- Hall in Hresp |- *.
    rewrite (get_all_projects_miss _ _ Hcache Hresp).
    unfold all_projects_continuation. cbv zeta. by case_bool_decide.
  - intros response Hcache Hresp. rewrite <- Hprefix in Hresp |- *.
    rewrite (get_project_miss _ _ _ Hcache Hresp).
    unfold project_continuation. cbv zeta. case_bool_decide; [done|].
    case_bool_decide.
    { unfold mbind, M_bind, lift. by destruct (append_project_names _ _). }
    by destruct (Response_get_projects response []).
Qed.

(** C9.  A response without the [projects] member is treated as a response
    whose [projects] member is the empty list.  Both methods behave the
    same against collaborators that always send the member as against
    those that may leave it out; and on a response without the member both
    take the no-project path and raise [GoogleInfrastructureError], not a
    lookup error. *)
Theorem missing_projects_key_is_no_project (st : State) (project_prefix : string) :
  get_all_projects (always_with_projects_key X) st = get_all_projects X st
  ∧ get_project (always_with_projects_key X) project_prefix st
    = get_project X project_prefix st
  ∧ (∀ response,
       let project_filter := _get_project_api_filter (self st) None in
       _all_projects_cache (self st) = [] →
       remote_responds st project_filter response →
       projects response = None →
       get_all_projects X st
       = (Raise (GoogleInfrastructureError
                   (("No projects returned for filter " +:+ project_filter +:+ ". ")
                    +:+ "A Foremast GCP Environment needs at least one project.")),
          after_lookup st project_filter))
  ∧ (∀ response,
       let project_filter := _get_project_api_filter (self st) (Some project_prefix) in
       _single_project_cache (self st) !! project_prefix = None →
       remote_responds st project_filter response →
       projects response = None →
       get_project X project_prefix st
       = (Raise (GoogleInfrastructureError
                   ("No projects returned for filter " +:+ project_filter)),
          after_lookup st project_filter)).
Proof.
  split_and!.
  - unfold get_all_projects, get_credentials, mbind, M_bind, get_self,
      call_from_service_account_file, call_discovery_build,
      call_projects_list_execute.
    case_bool_decide; [done|].
    cbn [from_service_account_file discovery_build projects_list_execute
         always_with_projects_key].
    destruct (from_service_account_file X _ _ _); [done|].
    cbn [self world]. destruct (discovery_build X _ _ _ _); [done|].
    cbn [self world]. by destruct (projects_list_execute X _ _ _).
  - unfold get_project, get_credentials, mbind, M_bind, get_self,
      call_from_service_account_file, call_discovery_build,
      call_projects_list_execute.
    case_bool_decide; [done|].
    cbn [from_service_account_file discovery_build projects_list_execute
         always_with_projects_key].
    destruct (from_service_account_file X _ _ _); [done|].
    cbn [self world]. destruct (discovery_build X _ _ _ _); [done|].
    cbn [self world]. by destruct (projects_list_execute X _ _ _).
  - intros response project_filter Hcache Hresp Hnone.
    rewrite (get_all_projects_miss _ _ Hcache Hresp).
    unfold all_projects_continuation, Response_get_projects. by rewrite Hnone.
  - intros response project_filter Hcache Hresp Hnone.
    rewrite (get_project_miss _ _ _ Hcache Hresp).
    unfold project_continuation, Response_get_projects. by rewrite Hnone.
Qed.

(** C10.  [get_project] takes the single record of the response as it is:
    whatever the record holds, and whatever [name_starts_with] and
    [has_cloud_env_label] say of it, the record is stored under the prefix
    and returned. *)
Theorem get_project_does_not_check_the_record (st : State)
    (project_prefix : string) (response : Response) (project : Project)
    (name_ok label_ok : bool) :
  let project_filter := _get_project_api_filter (self st) (Some project_prefix) in
  _single_project_cache (self st) !! project_prefix = None →
  remote_responds st project_filter response →
  Response_get_projects response [] = [project] →
  name_starts_with project_prefix project = name_ok →
  has_cloud_env_label (name (self st)) project = label_ok →
  (get_project X project_prefix st).1 = Ok project
  ∧ _single_project_cache (self (get_project X project_prefix st).2)
    = <[ project_prefix := project ]> (_single_project_cache (self st)).
Proof.
  intros project_filter Hcache Hresp Hone _ _.
  rewrite (get_project_miss _ _ _ Hcache Hresp).
  unfold project_continuation. cbv zeta. rewrite Hone.
  rewrite bool_decide_eq_false_2 by (simpl; lia).
  by rewrite bool_decide_eq_false_2 by (simpl; lia).
Qed.

End Running.

(** ** GcpResource.validate *)

(** C7.  [validate] raises when the [project] attribute is [None]: the
    exception is a [KeyError] (the ConfigurationError kind of the
    specification) whose message, "A project must be specified when
    creating or referencing a GCP Resource", opens, letter case apart,
    with "a project must be specified".  For every other value of
    [project] it returns nothing and leaves the resource as it was.  A
    resource constructed without a [project] entry has [project] [None]. *)
Theorem validate_requires_a_project (self : gmap string value) :
  let msg := "A project must be specified when creating or referencing a GCP Resource" in
  (self !! "project" = Some VNone →
   GcpResource.validate self = (Raise (KeyError msg), self)
   ∧ String.prefix "a project must be specified" (lower msg) = true)
  ∧ (∀ v, self !! "project" = Some v → v ≠ VNone →
          GcpResource.validate self = (Ok tt, self))
  ∧ (∀ entries,
       GcpResource.__init__ entries = Ok self →
       self !! "project" = Some (default VNone (entries !! "project"))).
Proof.
  intros msg. split_and!.
  - intros Hp. split; [|by vm_compute].
    unfold GcpResource.validate, mbind, M_bind, get. by rewrite Hp.
  - intros v Hp Hv.
    unfold GcpResource.validate, mbind, M_bind, get. rewrite Hp.
    by destruct v.
  - intros entries. unfold GcpResource.__init__.
    case_bool_decide; [done|]. intros [= <-].
    rewrite lookup_union. destruct (entries !! "project") as [v|] eqn:Hp.
    + by rewrite lookup_singleton_eq.
    + by rewrite lookup_singleton_eq.
Qed.

(** ** get_environments_from_config *)

Lemma init_without_reserved_key (n : string) (entries : gmap string value) :
  entries !! "name" = None →
  entries !! "self" = None →
  GcpEnvironment.__init__ n entries = Ok (entries ∪ default_attributes n).
Proof.
  intros Hname Hself. unfold GcpEnvironment.__init__.
  rewrite Hname, Hself.
  rewrite !bool_decide_eq_false_2 by (by intros [? ?]). done.
Qed.

Lemma init_with_reserved_key (n : string) (entries : gmap string value) :
  is_Some (entries !! "name") ∨ is_Some (entries !! "self") →
  ∃ msg, GcpEnvironment.__init__ n entries = Raise (TypeError msg).
Proof.
  intros Hres. unfold GcpEnvironment.__init__.
  case_bool_decide; [by eexists|].
  case_bool_decide; [by eexists|]. tauto.
Qed.

(** The loop adds to the dictionary one environment for each item, built
    from the item's overrides. *)
Lemma build_environments_lookup (items : list (string * gmap string value))
    (gcp_envs : gmap string (gmap string value)) :
  NoDup items.*1 →
  (∀ env_name env_config, (env_name, env_config) ∈ items →
     env_config !! "name" = None ∧ env_config !! "self" = None) →
  ∃ built,
    GcpEnvironment.build_environments items gcp_envs = Ok built
    ∧ ∀ env_name,
        built !! env_name =
          match (list_to_map items : gmap string (gmap string value)) !! env_name with
          | Some env_config => Some (env_config ∪ default_attributes env_name)
          | None => gcp_envs !! env_name
          end.
Proof.
  revert gcp_envs.
  induction items as [|[n cfg] rest IH]; intros gcp_envs Hdup Hok.
  { exists gcp_envs. split; [done|]. intros k. unfold list_to_map. cbn [foldr].
    by rewrite lookup_empty. }
  cbn [GcpEnvironment.build_environments].
  destruct (Hok n cfg) as [Hname Hself]; [by left|].
  rewrite (init_without_reserved_key n cfg Hname Hself).
  cbn [fmap list_fmap fst] in Hdup. apply NoDup_cons in Hdup as [Hnotin Hdup].
  destruct (IH (<[ n := cfg ∪ default_attributes n ]> gcp_envs) Hdup)
    as (built & Hbuilt & Hlookup).
  { intros k c Hin. apply (Hok k c). by right. }
  exists built. split; [done|]. intros k. rewrite Hlookup.
  cbn [list_to_map foldr]. unfold uncurry, Datatypes.uncurry. cbn [fst snd].
  destruct (decide (n = k)) as [->|Hne].
  - rewrite lookup_insert_eq.
    rewrite (not_elem_of_list_to_map_1 rest k Hnotin).
    by rewrite lookup_insert_eq.
  - by rewrite !lookup_insert_ne by done.
Qed.

(** An environment built from overrides that leave the caches and the
    methods alone is an instance with both caches empty. *)
Lemma of_dict_new_environment (n : string) (entries : gmap string value) :
  entries !! "name" = None →
  Forall (λ k, entries !! k = None) internal_names →
  GcpEnvironment.of_dict (entries ∪ default_attributes n)
  = Some {| GcpEnvironment.name := n;
            GcpEnvironment.organization := default VNone (entries !! "organization");
            GcpEnvironment._all_projects_cache := [];
            GcpEnvironment._single_project_cache := ∅;
            GcpEnvironment.service_account_project :=
              default VNone (entries !! "service_account_project");
            GcpEnvironment.service_account_path :=
              default VNone (entries !! "service_account_path") |}.
Proof.
  intros Hname Hinternal.
  unfold internal_names, GcpEnvironment.method_names in Hinternal.
  repeat (apply Forall_cons in Hinternal as [? Hinternal]).
  unfold GcpEnvironment.of_dict, GcpEnvironment.method_names.
  rewrite bool_decide_eq_false_2.
  2:{ rewrite !Exists_cons, Exists_nil, !lookup_union_r by done.
      unfold default_attributes. intros [[? Hs]|[[? Hs]|[[? Hs]|[[? Hs]|[[? Hs]|[]]]]]];
        by simplify_map_eq. }
  rewrite !(lookup_union_r entries _ "name"),
    !(lookup_union_r entries _ "_all_projects_cache"),
    !(lookup_union_r entries _ "_single_project_cache") by done.
  rewrite !lookup_union.
  unfold default_attributes. simplify_map_eq.
  destruct (entries !! "organization"), (entries !! "service_account_project"),
    (entries !! "service_account_path"); done.
Qed.

(** C8, as the code has it.  For a configuration none of whose override
    mappings has a key [name] or [self], [get_environments_from_config]
    raises nothing, asks nothing of the collaborators, and returns a
    mapping with exactly the keys of the configuration; the environment
    under a key has that key as its [name], every override entry as an
    attribute with the value given, unknown keys included, and the
    defaults of the constructor for the attributes without an override.
    The empty configuration gives the empty mapping. *)
Theorem get_environments_from_config_builds_each (GCP_ENVS : gmap string (gmap string value))
    (w : list event) :
  (no_reserved_key GCP_ENVS →
   ∃ gcp_envs : gmap string (gmap string value),
     GcpEnvironment.get_environments_from_config GCP_ENVS w = (Ok gcp_envs, w)
     ∧ dom gcp_envs = dom GCP_ENVS
     ∧ ∀ env_name env_config,
         GCP_ENVS !! env_name = Some env_config →
         ∃ env : gmap string value,
           gcp_envs !! env_name = Some env
           ∧ env !! "name" = Some (VStr env_name)
           ∧ (∀ key v, env_config !! key = Some v → env !! key = Some v)
           ∧ (∀ key, env_config !! key = None →
                     env !! key = default_attributes env_name !! key))
  ∧ GcpEnvironment.get_environments_from_config ∅ w = (Ok ∅, w).
Proof.
  split; [|done].
  intros Hok.
  destruct (build_environments_lookup (map_to_list GCP_ENVS) ∅) as (built & Hbuilt & Hlookup).
  { apply NoDup_fst_map_to_list. }
  { intros n cfg Hin. rewrite <- !not_elem_of_dom. apply (Hok n cfg).
    by apply elem_of_map_to_list. }
  assert (∀ n, built !! n = (λ cfg, cfg ∪ default_attributes n) <$> GCP_ENVS !! n) as Hbuilt'.
  { intros n. rewrite Hlookup, list_to_map_to_list.
    destruct (GCP_ENVS !! n); [done|]. by rewrite lookup_empty. }
  exists built. split_and!.
  - unfold GcpEnvironment.get_environments_from_config, lift. cbv zeta. by rewrite Hbuilt.
  - apply set_eq. intros n. rewrite !elem_of_dom, Hbuilt'.
    by rewrite fmap_is_Some.
  - intros n cfg Hcfg. exists (cfg ∪ default_attributes n).
    destruct (Hok n cfg Hcfg) as [Hname%not_elem_of_dom _].
    split_and!.
    + by rewrite Hbuilt', Hcfg.
    + rewrite lookup_union_r by done. unfold default_attributes.
      by simplify_map_eq.
    + intros key v Hkey. by apply lookup_union_Some_l.
    + intros key Hkey. by apply lookup_union_r.
Qed.

(** ** Worked instances *)

Section Instances.

Import GcpEnvironment.

Lemma get_all_projects_serves_from_cache_witness :
  let st1 := (get_all_projects prod_directory (fresh_state "prod")).2 in
  let later := [GetProject "proj-a"; GetAllProjects; GetProject "none"] in
  let both := [named_project "proj-a"; named_project "proj-b"] in
  0 < length (_all_projects_cache (self st1))
  ∧ get_all_projects prod_directory (fresh_state "prod") = (Ok both, st1)
  ∧ get_all_projects prod_directory (run_calls prod_directory later st1)
    = (Ok both, run_calls prod_directory later st1)
  ∧ get_all_projects prod_directory st1 = (Ok both, st1).
Proof.
  intros st1 later both.
  assert (0 < length (_all_projects_cache (self st1))) as Hlen by (vm_compute; lia).
  assert (get_all_projects prod_directory (fresh_state "prod") = (Ok both, st1))
    as Hfirst by reflexivity.
  split_and!; [exact Hlen|exact Hfirst| |].
  - exact (proj1 (get_all_projects_serves_from_cache prod_directory st1 later) Hlen).
  - exact (proj1 (proj2 (get_all_projects_serves_from_cache
                           prod_directory (fresh_state "prod") later)
                    both st1 Hfirst)).
Defined.

Lemma get_all_projects_no_projects_witness :
  let st := fresh_state "prod" in
  let response := {| projects := Some [] |} in
  (_all_projects_cache (self st) = []
   ∧ remote_responds empty_directory st "labels.cloud_env:prod" response
   ∧ Response_get_projects response [] = [])
  ∧ get_all_projects empty_directory st
    = (Raise (GoogleInfrastructureError
                "No projects returned for filter labels.cloud_env:prod. A Foremast GCP Environment needs at least one project."),
       after_lookup st "labels.cloud_env:prod")
  ∧ _all_projects_cache (self (after_lookup st "labels.cloud_env:prod")) = [].
Proof.
  intros st response.
  assert (remote_responds empty_directory st "labels.cloud_env:prod" response)
    as Hresp by (by split_and!).
  split; [by split_and!|].
  pose proof (get_all_projects_no_projects empty_directory st response
                eq_refl Hresp eq_refl) as (Hraise & _ & _ & _ & Hcache & _).
  split; [exact Hraise|exact Hcache].
Defined.

Lemma get_project_ambiguous_witness :
  let st := fresh_state "prod" in
  let project_filter := "labels.cloud_env:prod name:proj*" in
  let response := prod_answer project_filter in
  (_single_project_cache (self st) !! "proj" = None
   ∧ remote_responds prod_directory st project_filter response
   ∧ 2 ≤ length (Response_get_projects response [])
   ∧ Forall (λ project : Project, ∃ n, project !! "name" = Some (VStr n))
            (Response_get_projects response []))
  ∧ ∃ msg,
      get_project prod_directory "proj" st
      = (Raise (GoogleInfrastructureError msg), after_lookup st project_filter)
      ∧ occurs_in "proj-a" msg
      ∧ occurs_in "proj-b" msg.
Proof.
  intros st project_filter response.
  assert (remote_responds prod_directory st project_filter response)
    as Hresp by (by split_and!).
  assert (2 ≤ length (Response_get_projects response [])) as Hlen
    by (vm_compute; lia).
  assert (Forall (λ project : Project, ∃ n, project !! "name" = Some (VStr n))
            (Response_get_projects response [])) as Hnamed.
  { change (Response_get_projects response [])
      with [named_project "proj-a"; named_project "proj-b"].
    repeat constructor; by eexists. }
  split; [by split_and!|].
  destruct (get_project_ambiguous prod_directory st "proj" response
              eq_refl Hresp Hlen Hnamed) as (msg & Hraise & Hnames & _).
  exists msg. split_and!; [exact Hraise| |].
  - apply (Hnames (named_project "proj-a")); [|done].
    change (Response_get_projects response [])
      with [named_project "proj-a"; named_project "proj-b"].
    apply elem_of_cons. by left.
  - apply (Hnames (named_project "proj-b")); [|done].
    change (Response_get_projects response [])
      with [named_project "proj-a"; named_project "proj-b"].
    apply elem_of_cons. right. apply elem_of_cons. by left.
Defined.

Lemma get_project_no_projects_witness :
  let st := fresh_state "prod" in
  let project_filter := "labels.cloud_env:prod name:none*" in
  let response := prod_answer project_filter in
  (_single_project_cache (self st) !! "none" = None
   ∧ remote_responds prod_directory st project_filter response
   ∧ Response_get_projects response [] = [])
  ∧ get_project prod_directory "none" st
    = (Raise (GoogleInfrastructureError
                "No projects returned for filter labels.cloud_env:prod name:none*"),
       after_lookup st project_filter).
Proof.
  intros st project_filter response.
  assert (remote_responds prod_directory st project_filter response)
    as Hresp by (by split_and!).
  split; [by split_and!|].
  exact (proj1 (get_project_no_projects prod_directory st "none" response
                  eq_refl Hresp eq_refl)).
Defined.

Lemma get_project_stores_and_reuses_witness :
  let st := fresh_state "prod" in
  let project_filter := "labels.cloud_env:prod name:proj-a*" in
  let response := prod_answer project_filter in
  let st1 := (get_project prod_directory "proj-a" st).2 in
  let later := [GetAllProjects; GetProject "proj"; GetProject "none"] in
  (_single_project_cache (self st) !! "proj-a" = None
   ∧ remote_responds prod_directory st project_filter response
   ∧ Response_get_projects response [] = [named_project "proj-a-1"])
  ∧ get_project prod_directory "proj-a" st = (Ok (named_project "proj-a-1"), st1)
  ∧ _single_project_cache (self st1) !! "proj-a" = Some (named_project "proj-a-1")
  ∧ get_project prod_directory "proj-a" (run_calls prod_directory later st1)
    = (Ok (named_project "proj-a-1"), run_calls prod_directory later st1).
Proof.
  intros st project_filter response st1 later.
  assert (remote_responds prod_directory st project_filter response)
    as Hresp by (by split_and!).
  split; [by split_and!|].
  pose proof (get_project_stores_and_reuses prod_directory st "proj-a" response
                (named_project "proj-a-1") later eq_refl Hresp eq_refl)
    as (Hfirst & Hcached & _ & Hlater).
  split_and!; [exact Hfirst|exact Hcached|exact Hlater].
Defined.

Lemma project_api_filters_witness :
  let st := fresh_state "prod" in
  _get_project_api_filter (self st) None = "labels.cloud_env:prod"
  ∧ _get_project_api_filter (self st) (Some "proj-a")
    = "labels.cloud_env:prod name:proj-a*"
  ∧ world (get_all_projects prod_directory st).2
    = lookup_events (self st) "labels.cloud_env:prod"
  ∧ world (get_project prod_directory "proj-a" st).2
    = lookup_events (self st) "labels.cloud_env:prod name:proj-a*".
Proof.
  intros st.
  pose proof (project_api_filters prod_directory st "proj-a")
    as (Hall & Hprefix & _ & _ & Hall_used & Hprefix_used).
  split_and!; [exact Hall|exact Hprefix| |].
  - apply (Hall_used (prod_answer "labels.cloud_env:prod")); [done|by split_and!].
  - apply (Hprefix_used (prod_answer "labels.cloud_env:prod name:proj-a*"));
      [done|by split_and!].
Defined.

Lemma missing_projects_key_is_no_project_witness :
  let st := fresh_state "dev" in
  (projects (prod_answer "labels.cloud_env:dev") = None
   ∧ projects (prod_answer "labels.cloud_env:dev name:web*") = None)
  ∧ get_all_projects prod_directory st
    = (Raise (GoogleInfrastructureError
                "No projects returned for filter labels.cloud_env:dev. A Foremast GCP Environment needs at least one project."),
       after_lookup st "labels.cloud_env:dev")
  ∧ get_project prod_directory "web" st
    = (Raise (GoogleInfrastructureError
                "No projects returned for filter labels.cloud_env:dev name:web*"),
       after_lookup st "labels.cloud_env:dev name:web*")
  ∧ get_all_projects (always_with_projects_key prod_directory) st
    = get_all_projects prod_directory st.
Proof.
  intros st. split; [done|].
  pose proof (missing_projects_key_is_no_project prod_directory st "web")
    as (Hsame & _ & Hall & Hone).
  split_and!; [| |exact Hsame].
  - apply (Hall (prod_answer "labels.cloud_env:dev")); [done|by split_and!|done].
  - apply (Hone (prod_answer "labels.cloud_env:dev name:web*"));
      [done|by split_and!|done].
Defined.

Lemma get_project_does_not_check_the_record_witness :
  let st := fresh_state "prod" in
  let response := {| projects := Some [stray_project] |} in
  (_single_project_cache (self st) !! "proj-a" = None
   ∧ remote_responds stray_directory st "labels.cloud_env:prod name:proj-a*" response
   ∧ Response_get_projects response [] = [stray_project]
   ∧ name_starts_with "proj-a" stray_project = false
   ∧ has_cloud_env_label "prod" stray_project = false)
  ∧ (get_project stray_directory "proj-a" st).1 = Ok stray_project
  ∧ _single_project_cache (self (get_project stray_directory "proj-a" st).2)
    = <[ "proj-a" := stray_project ]> ∅.
Proof.
  intros st response.
  assert (remote_responds stray_directory st "labels.cloud_env:prod name:proj-a*"
            response) as Hresp by (by split_and!).
  split; [by split_and!|].
  exact (get_project_does_not_check_the_record stray_directory st "proj-a" response
           stray_project false false eq_refl Hresp eq_refl eq_refl eq_refl).
Defined.

End Instances.

Lemma validate_requires_a_project_witness :
  let unset : gmap string value := <[ "project" := VNone ]> ∅ in
  let set : gmap string value := <[ "project" := VStr "billing-prod" ]> ∅ in
  (unset !! "project" = Some VNone
   ∧ set !! "project" = Some (VStr "billing-prod")
   ∧ VStr "billing-prod" ≠ VNone
   ∧ GcpResource.__init__ ∅ = Ok unset)
  ∧ GcpResource.validate unset
    = (Raise (KeyError "A project must be specified when creating or referencing a GCP Resource"),
       unset)
  ∧ GcpResource.validate set = (Ok tt, set)
  ∧ unset !! "project" = Some VNone.
Proof.
  intros unset set.
  assert (VStr "billing-prod" ≠ VNone) as Hne by done.
  assert (GcpResource.__init__ ∅ = Ok unset) as Hinit by reflexivity.
  split; [by split_and!|].
  split_and!.
  - exact (proj1 (proj1 (validate_requires_a_project unset) eq_refl)).
  - exact (proj1 (proj2 (validate_requires_a_project set))
             (VStr "billing-prod") eq_refl Hne).
  - exact (proj2 (proj2 (validate_requires_a_project unset)) ∅ Hinit).
Defined.

Lemma sample_config_no_reserved_key : no_reserved_key sample_config.
Proof. unfold no_reserved_key. apply (bool_decide_unpack _). by vm_compute. Qed.

Lemma get_environments_from_config_builds_each_witness :
  no_reserved_key sample_config
  ∧ ∃ gcp_envs : gmap string (gmap string value),
      GcpEnvironment.get_environments_from_config sample_config [] = (Ok gcp_envs, [])
      ∧ dom gcp_envs = dom sample_config
      ∧ ∃ env : gmap string value,
          gcp_envs !! "prod" = Some env
          ∧ env !! "name" = Some (VStr "prod")
          ∧ env !! "region" = Some (VStr "us")
          ∧ env !! "_all_projects_cache" = Some (VList []).
Proof.
  split; [exact sample_config_no_reserved_key|].
  destruct (proj1 (get_environments_from_config_builds_each sample_config [])
              sample_config_no_reserved_key) as (gcp_envs & Hrun & Hdom & Heach).
  exists gcp_envs. split_and!; [exact Hrun|exact Hdom|].
  destruct (Heach "prod" (<[ "organization" := VStr "acme" ]> (<[ "region" := VStr "us" ]> ∅))
              eq_refl) as (env & Henv & Hname & Hgiven & Hdefault).
  exists env. split_and!; [exact Henv|exact Hname| |].
  - by apply Hgiven.
  - by rewrite Hdefault.
Defined.

(** An override mapping with the key [name]: the constructor is called
    with the keyword twice and raises; no mapping is returned. *)
Lemma get_environments_from_config_renaming_raises :
  renaming_config !! "prod" = Some (<[ "name" := VStr "production" ]> ∅)
  ∧ GcpEnvironment.get_environments_from_config renaming_config []
    = (Raise (TypeError "got multiple values for keyword argument 'name'"), [])
  ∧ ¬ ∃ gcp_envs : gmap string (gmap string value),
        GcpEnvironment.get_environments_from_config renaming_config []
        = (Ok gcp_envs, []).
Proof.
  assert (GcpEnvironment.get_environments_from_config renaming_config []
          = (Raise (TypeError "got multiple values for keyword argument 'name'"), []))
    as Hraise by (by vm_compute).
  split_and!; [done|exact Hraise|].
  intros [gcp_envs Hok]. rewrite Hraise in Hok. discriminate Hok.
Qed.

(** ** Further properties of the lookups *)

Section Further.

Import GcpEnvironment.

Variable X : Externals.

Lemma remote_responds_inj (st : State) (project_filter : string)
    (response response' : Response) :
  remote_responds X st project_filter response →
  remote_responds X st project_filter response' →
  response = response'.
Proof. intros (_ & _ & H) (_ & _ & H'). congruence. Qed.

Lemma remote_responds_not_raises (st : State) (project_filter : string)
    (response : Response) (e : exn) :
  remote_responds X st project_filter response →
  collaborator_raises X st project_filter e → False.
Proof.
  intros (Hc & Hb & Hx) [H|[[_ H]|(_ & _ & H)]]; congruence.
Qed.

(** A lookup either is answered, or stops at the request that raised. *)
Lemma remote_lookup_cases (project_filter : string) (st : State) :
  (∃ response,
     remote_responds X st project_filter response
     ∧ remote_lookup X project_filter st = (Ok response, after_lookup st project_filter))
  ∨ (∃ e st1,
       collaborator_raises X st project_filter e
       ∧ remote_lookup X project_filter st = (Raise e, st1)
       ∧ self st1 = self st).
Proof.
  pose proof (remote_lookup_self X project_filter st) as Hself.
  pose proof (remote_lookup_responds X project_filter st) as Hresp.
  unfold remote_responds in *. unfold collaborator_raises.
  unfold remote_lookup, get_credentials, mbind, M_bind, get_self,
    call_from_service_account_file, call_discovery_build,
    call_projects_list_execute in *.
  fold scopes in *. cbv zeta in *.
  destruct (from_service_account_file X _ _ _) as [e|] eqn:Hc.
  { right. exists e. eexists. split_and!; [by left|done|done]. }
  cbn [self world] in *. fold (credentials_of (self st)) in *.
  destruct (discovery_build X _ _ _ _) as [e|] eqn:Hb.
  { right. exists e. eexists. split_and!; [right; by left|done|done]. }
  cbn [self world] in *. fold (service_of (self st)) in *.
  destruct (projects_list_execute X _ _ _) as [response|e] eqn:Hx.
  { left. exists response. split; [done|]. by apply Hresp. }
  right. exists e. eexists. split_and!; [right; right; done|done|done].
Qed.

Lemma empty_of_not_positive {A} (l : list A) : ¬ 0 < length l → l = [].
Proof. destruct l; [done|]. simpl. lia. Qed.

(** X1.  [get_all_projects] returns a list in two ways only: the cache is
    not empty and the list is the cache, with nothing changed; or the cache
    is empty, the remote service answers with a non-empty list, and that
    list, in the order of the answer, is returned and becomes the cache
    after exactly the three requests of one lookup. *)
Theorem get_all_projects_returns (st : State) (l : list Project) (st' : State) :
  let project_filter := _get_project_api_filter (self st) None in
  get_all_projects X st = (Ok l, st') ↔
    (0 < length (_all_projects_cache (self st))
     ∧ l = _all_projects_cache (self st) ∧ st' = st)
    ∨ (_all_projects_cache (self st) = []
       ∧ l ≠ []
       ∧ (∃ response,
            remote_responds X st project_filter response
            ∧ Response_get_projects response [] = l)
       ∧ st' = {| self := set_all_projects_cache l (self st);
                  world := world st ++ lookup_events (self st) project_filter |}).
Proof.
  intros project_filter. rewrite get_all_projects_unfold.
  case_bool_decide as Hlen.
  { split.
    - intros [= <- <-]. by left.
    - intros [(_ & -> & ->)|(Hc & _)]; [done|].
      rewrite Hc in Hlen. simpl in Hlen. lia. }
  pose proof (empty_of_not_positive _ Hlen) as Hc.
  cbv zeta. unfold mbind, M_bind. fold project_filter.
  destruct (remote_lookup_cases project_filter st)
    as [(r & Hr & E)|(e0 & st1 & Hraise & E & Hself)]; rewrite E.
  - unfold all_projects_continuation. cbv zeta. case_bool_decide as Hz.
    + split; [done|].
      intros [(Hl & _)|(_ & Hne & (r' & Hr' & Hget) & _)]; [lia|].
      rewrite (remote_responds_inj _ _ _ _ Hr Hr'), Hget in Hz.
      by destruct l.
    + unfold mbind, M_bind, modify_self, mret, M_ret.
      cbn [self world after_lookup]. split.
      * intros [= <- <-]. right. split_and!; [done| |by eauto|done].
        intros Hn. by rewrite Hn in Hz.
      * intros [(Hl & _)|(_ & _ & (r' & Hr' & Hget) & ->)]; [lia|].
        by rewrite (remote_responds_inj _ _ _ _ Hr Hr'), Hget.
  - split; [done|].
    intros [(Hl & _)|(_ & _ & (r' & Hr' & _) & _)]; [lia|].
    destruct (remote_responds_not_raises _ _ _ _ Hr' Hraise).
Qed.

(** X2.  [get_all_projects] raises in two ways only, both with an empty
    cache: a collaborator raised, and its exception is passed on; or the
    answer held no project, and the error is the module's.  A call that
    raises leaves the instance as it was: a failure is never cached. *)
Theorem get_all_projects_raises (st : State) (e : exn) :
  let project_filter := _get_project_api_filter (self st) None in
  ((get_all_projects X st).1 = Raise e ↔
     _all_projects_cache (self st) = []
     ∧ (collaborator_raises X st project_filter e
        ∨ ∃ response,
            remote_responds X st project_filter response
            ∧ Response_get_projects response [] = []
            ∧ e = GoogleInfrastructureError (no_projects_in_environment project_filter)))
  ∧ ((get_all_projects X st).1 = Raise e →
     self (get_all_projects X st).2 = self st).
Proof.
  intros project_filter. rewrite get_all_projects_unfold.
  case_bool_decide as Hlen.
  { split; [|done]. split; [done|]. intros [Hc _].
    rewrite Hc in Hlen. simpl in Hlen. lia. }
  pose proof (empty_of_not_positive _ Hlen) as Hc.
  cbv zeta. unfold mbind, M_bind. fold project_filter.
  destruct (remote_lookup_cases project_filter st)
    as [(r & Hr & E)|(e0 & st1 & Hraise & E & Hself)]; rewrite E.
  - unfold all_projects_continuation. cbv zeta. case_bool_decide as Hz.
    + apply length_zero_iff_nil in Hz. split; [|done]. cbn [fst raise]. split.
      * intros [= <-]. split; [done|]. right. exists r. by split_and!.
      * intros [_ [Hraise|(r' & Hr' & _ & ->)]]; [|done].
        destruct (remote_responds_not_raises _ _ _ _ Hr Hraise).
    + unfold mbind, M_bind, modify_self, mret, M_ret. cbn [fst].
      split; [|done]. split; [done|].
      intros [_ [Hraise|(r' & Hr' & Hget & _)]].
      * destruct (remote_responds_not_raises _ _ _ _ Hr Hraise).
      * rewrite (remote_responds_inj _ _ _ _ Hr Hr'), Hget in Hz. done.
  - cbn [fst snd]. split; [|done]. split.
    + intros [= <-]. split; [done|]. by left.
    + intros [_ [Hraise'|(r' & Hr' & _)]].
      * f_equal. clear -Hraise Hraise'.
        unfold collaborator_raises in *. cbv zeta in *.
        destruct Hraise as [H|[[? H]|(? & ? & H)]],
          Hraise' as [H'|[[? H']|(? & ? & H')]]; congruence.
      * destruct (remote_responds_not_raises _ _ _ _ Hr' Hraise).
Qed.

Lemma collaborator_raises_inj (st : State) (project_filter : string) (e e' : exn) :
  collaborator_raises X st project_filter e →
  collaborator_raises X st project_filter e' →
  e = e'.
Proof.
  unfold collaborator_raises. cbv zeta.
  intros [H|[[? H]|(? & ? & H)]] [H'|[[? H']|(? & ? & H')]]; congruence.
Qed.

(** X3.  [get_project] returns a project in two ways only: the prefix is a
    key of the cache and the project is the entry, with nothing changed; or
    the prefix is not a key, the remote service answers with exactly one
    record, and that record is returned and stored under the prefix after
    exactly the three requests of one lookup. *)
Theorem get_project_returns (project_prefix : string) (st : State)
    (project : Project) (st' : State) :
  let project_filter := _get_project_api_filter (self st) (Some project_prefix) in
  get_project X project_prefix st = (Ok project, st') ↔
    (_single_project_cache (self st) !! project_prefix = Some project ∧ st' = st)
    ∨ (_single_project_cache (self st) !! project_prefix = None
       ∧ (∃ response,
            remote_responds X st project_filter response
            ∧ Response_get_projects response [] = [project])
       ∧ st' = {| self := set_single_project_cache
                            (<[ project_prefix := project ]>
                               (_single_project_cache (self st)))
                            (self st);
                  world := world st ++ lookup_events (self st) project_filter |}).
Proof.
  intros project_filter. rewrite get_project_unfold.
  destruct (_single_project_cache (self st) !! project_prefix) as [cached|] eqn:Hc.
  { split.
    - intros [= <- <-]. by left.
    - intros [([= ->] & ->)|(? & _)]; done. }
  cbv zeta. unfold mbind, M_bind. fold project_filter.
  destruct (remote_lookup_cases project_filter st)
    as [(r & Hr & E)|(e0 & st1 & Hraise & E & Hself)]; rewrite E.
  - unfold project_continuation. cbv zeta.
    destruct (Response_get_projects r []) as [|first [|second rest]] eqn:Hget.
    + rewrite bool_decide_eq_true_2 by done. split; [done|].
      intros [(? & _)|(_ & (r' & Hr' & Hget') & _)]; [done|].
      rewrite <- (remote_responds_inj _ _ _ _ Hr Hr'), Hget in Hget'. done.
    + rewrite bool_decide_eq_false_2 by done.
      rewrite bool_decide_eq_false_2 by (simpl; lia).
      unfold mbind, M_bind, modify_self, mret, M_ret, get_self.
      cbn [self world after_lookup]. split.
      * intros [= <- <-]. right. split_and!; [done|by eauto|done].
      * intros [(? & _)|(_ & (r' & Hr' & Hget') & ->)]; [done|].
        rewrite <- (remote_responds_inj _ _ _ _ Hr Hr'), Hget in Hget'.
        by injection Hget' as <-.
    + rewrite bool_decide_eq_false_2 by done.
      rewrite bool_decide_eq_true_2 by (simpl; lia).
      unfold mbind, M_bind, lift, raise.
      split.
      * by destruct (append_project_names _ _).
      * intros [(? & _)|(_ & (r' & Hr' & Hget') & _)]; [done|].
        rewrite <- (remote_responds_inj _ _ _ _ Hr Hr'), Hget in Hget'. done.
  - split; [done|].
    intros [(? & _)|(_ & (r' & Hr' & _) & _)]; [done|].
    destruct (remote_responds_not_raises _ _ _ _ Hr' Hraise).
Qed.

(** X4.  [get_project] raises in four ways only, all with the prefix absent
    from the cache: a collaborator raised, and its exception is passed on;
    the answer held no record; the answer held two records or more and the
    message that lists them was completed; or it held two or more and
    reading a name raised.  An answer with one record never raises, and a
    call that raises leaves the instance as it was. *)
Theorem get_project_raises (project_prefix : string) (st : State) (e : exn) :
  let project_filter := _get_project_api_filter (self st) (Some project_prefix) in
  ((get_project X project_prefix st).1 = Raise e ↔
     _single_project_cache (self st) !! project_prefix = None
     ∧ (collaborator_raises X st project_filter e
        ∨ ∃ response,
            remote_responds X st project_filter response
            ∧ let returned := Response_get_projects response [] in
              (returned = []
               ∧ e = GoogleInfrastructureError
                       ("No projects returned for filter " +:+ project_filter))
              ∨ (2 ≤ length returned
                 ∧ ∃ msg,
                     append_project_names returned (ambiguous_header project_filter)
                     = Ok msg
                     ∧ e = GoogleInfrastructureError msg)
              ∨ (2 ≤ length returned
                 ∧ append_project_names returned (ambiguous_header project_filter)
                   = Raise e)))
  ∧ ((get_project X project_prefix st).1 = Raise e →
     self (get_project X project_prefix st).2 = self st).
Proof.
  intros project_filter. rewrite get_project_unfold.
  destruct (_single_project_cache (self st) !! project_prefix) as [cached|] eqn:Hc.
  { split; [|done]. split; [done|]. by intros [? _]. }
  cbv zeta. unfold mbind, M_bind. fold project_filter.
  destruct (remote_lookup_cases project_filter st)
    as [(r & Hr & E)|(e0 & st1 & Hraise & E & Hself)]; rewrite E.
  - unfold project_continuation. cbv zeta. fold (ambiguous_header project_filter).
    destruct (Response_get_projects r []) as [|first [|second rest]] eqn:Hget.
    + rewrite bool_decide_eq_true_2 by done. cbn [fst snd raise].
      split; [|done]. split.
      * intros [= <-]. split; [done|]. right. exists r. split; [done|].
        rewrite Hget. by left.
      * intros [_ [Hraise|(r' & Hr' & Hcases)]].
        { destruct (remote_responds_not_raises _ _ _ _ Hr Hraise). }
        rewrite <- (remote_responds_inj _ _ _ _ Hr Hr'), Hget in Hcases.
        destruct Hcases as [[_ ->]|[[Hlen _]|[Hlen _]]];
          [done|simpl in Hlen; lia|simpl in Hlen; lia].
    + rewrite bool_decide_eq_false_2 by done.
      rewrite bool_decide_eq_false_2 by (simpl; lia).
      unfold mbind, M_bind, modify_self, mret, M_ret, get_self. cbn [fst].
      split; [|done]. split; [done|].
      intros [_ [Hraise|(r' & Hr' & Hcases)]].
      { destruct (remote_responds_not_raises _ _ _ _ Hr Hraise). }
      rewrite <- (remote_responds_inj _ _ _ _ Hr Hr'), Hget in Hcases.
      destruct Hcases as [[? _]|[[Hlen _]|[Hlen _]]];
        [done|simpl in Hlen; lia|simpl in Hlen; lia].
    + rewrite bool_decide_eq_false_2 by done.
      rewrite bool_decide_eq_true_2 by (simpl; lia).
      unfold mbind, M_bind, lift, raise.
      destruct (append_project_names (first :: second :: rest) _) as [msg|e1] eqn:Hloop;
        cbn [fst snd]; (split; [|done]); split.
      * intros [= <-]. split; [done|]. right. exists r. split; [done|].
        rewrite Hget. right. left. split; [simpl; lia|]. by exists msg.
      * intros [_ [Hraise|(r' & Hr' & Hcases)]].
        { destruct (remote_responds_not_raises _ _ _ _ Hr Hraise). }
        rewrite <- (remote_responds_inj _ _ _ _ Hr Hr'), Hget in Hcases.
        destruct Hcases as [[? _]|[(_ & msg' & Hmsg' & ->)|[_ Hloop']]];
          [done| |congruence].
        congruence.
      * intros [= <-]. split; [done|]. right. exists r. split; [done|].
        rewrite Hget. right. right. split; [simpl; lia|done].
      * intros [_ [Hraise|(r' & Hr' & Hcases)]].
        { destruct (remote_responds_not_raises _ _ _ _ Hr Hraise). }
        rewrite <- (remote_responds_inj _ _ _ _ Hr Hr'), Hget in Hcases.
        destruct Hcases as [[? _]|[(_ & msg' & Hmsg' & ->)|[_ Hloop']]];
          [done|congruence|congruence].
  - cbn [fst snd]. split; [|done]. split.
    + intros [= <-]. split; [done|]. by left.
    + intros [_ [Hraise'|(r' & Hr' & _)]].
      * f_equal. by eapply collaborator_raises_inj.
      * destruct (remote_responds_not_raises _ _ _ _ Hr' Hraise).
Qed.

(** *** What a call can do to the instance *)

Lemma get_all_projects_self_cases (st : State) :
  self (get_all_projects X st).2 = self st
  ∨ ∃ l, self (get_all_projects X st).2 = set_all_projects_cache l (self st).
Proof.
  rewrite get_all_projects_unfold. case_bool_decide; [by left|].
  cbv zeta. unfold mbind, M_bind.
  destruct (remote_lookup_cases (_get_project_api_filter (self st) None) st)
    as [(r & Hr & E)|(e0 & st1 & Hraise & E & Hself)]; rewrite E; [|by left].
  unfold all_projects_continuation. cbv zeta. case_bool_decide; [by left|].
  right. by eexists.
Qed.

Lemma get_project_self_cases (project_prefix : string) (st : State) :
  self (get_project X project_prefix st).2 = self st
  ∨ ∃ project,
      self (get_project X project_prefix st).2
      = set_single_project_cache
          (<[ project_prefix := project ]> (_single_project_cache (self st)))
          (self st).
Proof.
  rewrite get_project_unfold.
  destruct (_single_project_cache (self st) !! project_prefix); [by left|].
  cbv zeta. unfold mbind, M_bind.
  destruct (remote_lookup_cases
              (_get_project_api_filter (self st) (Some project_prefix)) st)
    as [(r & Hr & E)|(e0 & st1 & Hraise & E & Hself)]; rewrite E; [|by left].
  unfold project_continuation. cbv zeta. case_bool_decide; [by left|].
  case_bool_decide.
  { unfold mbind, M_bind, lift. destruct (append_project_names _ _); by left. }
  destruct (Response_get_projects r []); [by left|].
  right. by eexists.
Qed.

(** X5.  The two caches do not meet.  [get_all_projects] leaves the
    single-project cache as it is and [get_project] the all-projects cache;
    and neither reads the other's cache: the result of [get_project] is the
    same whatever the all-projects cache holds, even the very project asked
    for, and the result of [get_all_projects] the same whatever the
    single-project cache holds. *)
Theorem caches_do_not_meet (st : State) (project_prefix : string)
    (l : list Project) (cache : gmap string Project) :
  _single_project_cache (self (get_all_projects X st).2)
  = _single_project_cache (self st)
  ∧ _all_projects_cache (self (get_project X project_prefix st).2)
    = _all_projects_cache (self st)
  ∧ (get_project X project_prefix
       {| self := set_all_projects_cache l (self st); world := world st |}).1
    = (get_project X project_prefix st).1
  ∧ (get_all_projects X
       {| self := set_single_project_cache cache (self st); world := world st |}).1
    = (get_all_projects X st).1.
Proof.
  split_and!.
  - destruct (get_all_projects_self_cases st) as [->|[l' ->]]; done.
  - destruct (get_project_self_cases project_prefix st) as [->|[project ->]]; done.
  - unfold get_project, get_credentials, mbind, M_bind, get_self,
      call_from_service_account_file, call_discovery_build,
      call_projects_list_execute, _get_project_api_filter.
    cbn [self world set_all_projects_cache _single_project_cache
           service_account_path name].
    case_bool_decide; [by destruct (_single_project_cache (self st) !! project_prefix)|].
    destruct (from_service_account_file X _ _ _); [done|].
    cbn [self world set_all_projects_cache _single_project_cache
           service_account_path name].
    destruct (discovery_build X _ _ _ _); [done|].
    cbn [self world set_all_projects_cache _single_project_cache
           service_account_path name].
    destruct (projects_list_execute X _ _ _) as [r|e]; [|done].
    cbv zeta. case_bool_decide; [done|]. case_bool_decide.
    { unfold lift. by destruct (append_project_names _ _). }
    by destruct (Response_get_projects r []).
  - unfold get_all_projects, get_credentials, mbind, M_bind, get_self,
      call_from_service_account_file, call_discovery_build,
      call_projects_list_execute, _get_project_api_filter.
    cbn [self world set_single_project_cache _all_projects_cache
           service_account_path name].
    case_bool_decide; [done|].
    destruct (from_service_account_file X _ _ _); [done|].
    cbn [self world set_single_project_cache _all_projects_cache
           service_account_path name].
    destruct (discovery_build X _ _ _ _); [done|].
    cbn [self world set_single_project_cache _all_projects_cache
           service_account_path name].
    destruct (projects_list_execute X _ _ _) as [r|e]; [|done].
    cbv zeta. by case_bool_decide.
Qed.

Lemma run_call_settings (c : call) (st : State) :
  settings (self (run_call X c st)) = settings (self st).
Proof.
  destruct c as [|project_prefix]; cbn [run_call].
  - destruct (get_all_projects_self_cases st) as [->|[l ->]]; done.
  - destruct (get_project_self_cases project_prefix st) as [->|[project ->]]; done.
Qed.

(** X6.  No sequence of calls changes the name of the environment, its
    organization or its service account settings; so the filters and the
    key file of every later lookup are those of the first. *)
Theorem calls_keep_the_settings (cs : list call) (st : State)
    (project_prefix : option string) :
  settings (self (run_calls X cs st)) = settings (self st)
  ∧ _get_project_api_filter (self (run_calls X cs st)) project_prefix
    = _get_project_api_filter (self st) project_prefix
  ∧ credentials_of (self (run_calls X cs st)) = credentials_of (self st).
Proof.
  assert (settings (self (run_calls X cs st)) = settings (self st)) as Hsame.
  { revert st. induction cs as [|c cs IH]; intros st; [done|].
    by rewrite run_calls_cons, IH, run_call_settings. }
  split; [done|]. unfold settings in Hsame. injection Hsame as Hn Ho Hp Hf.
  unfold _get_project_api_filter, credentials_of. by rewrite Hn, Hf.
Qed.

Lemma run_call_single_cache_keys (c : call) (st : State) (k : string) :
  is_Some (_single_project_cache (self (run_call X c st)) !! k) →
  is_Some (_single_project_cache (self st) !! k) ∨ [c] = [GetProject k].
Proof.
  destruct c as [|project_prefix]; cbn [run_call].
  - rewrite get_all_projects_single_cache. by left.
  - destruct (get_project_self_cases project_prefix st) as [->|[project ->]];
      [by left|].
    cbn [_single_project_cache set_single_project_cache].
    destruct (decide (project_prefix = k)) as [->|Hne]; [by right|].
    rewrite lookup_insert_ne by done. by left.
Qed.

(** X7.  The single-project cache only grows, and only under prefixes that
    were asked for: after any sequence of calls every key of the cache was
    a key before or is the prefix of one of the [get_project] calls, and
    every entry that was there before is there unchanged. *)
Theorem single_project_cache_grows_by_requests (cs : list call) (st : State)
    (k : string) :
  (is_Some (_single_project_cache (self (run_calls X cs st)) !! k) →
   is_Some (_single_project_cache (self st) !! k) ∨ k ∈ requested_prefixes cs)
  ∧ (∀ project,
       _single_project_cache (self st) !! k = Some project →
       _single_project_cache (self (run_calls X cs st)) !! k = Some project).
Proof.
  split; [|intros project; apply run_calls_single_cache].
  revert st. induction cs as [|c cs IH]; intros st; [by left|].
  rewrite run_calls_cons. intros Hk.
  destruct (IH _ Hk) as [Hbefore|Hin].
  - destruct (run_call_single_cache_keys c st k Hbefore) as [?|[= ->]]; [by left|].
    right. cbn [requested_prefixes]. apply elem_of_cons. by left.
  - right. destruct c; cbn [requested_prefixes]; [done|].
    apply elem_of_cons. by right.
Qed.

Lemma list_requests_app (w w' : list event) :
  list_requests (w ++ w') = list_requests w + list_requests w'.
Proof.
  induction w as [|e w IH]; [done|]. cbn [app list_requests]. rewrite IH. lia.
Qed.

Lemma list_requests_lookup_prefix (evs : list event) (self : t)
    (project_filter : string) :
  evs `prefix_of` lookup_events self project_filter →
  list_requests evs ≤ 1.
Proof.
  intros [k Hk].
  assert (list_requests (lookup_events self project_filter) = 1) as Hone by done.
  rewrite Hk, list_requests_app in Hone. lia.
Qed.

Lemma run_call_world (c : call) (st : State) :
  ∃ evs, world (run_call X c st) = world st ++ evs ∧ list_requests evs ≤ 1.
Proof.
  destruct c as [|project_prefix]; cbn [run_call].
  - destruct (get_all_projects_world X st) as (evs & Hw & Hpre).
    exists evs. split; [done|]. by eapply list_requests_lookup_prefix.
  - destruct (get_project_world X project_prefix st) as (evs & Hw & Hpre).
    exists evs. split; [done|]. by eapply list_requests_lookup_prefix.
Qed.

(** X8.  A call makes at most one list request, and the trace of requests
    is only ever extended: after a sequence of calls the trace begins with
    the trace before, and holds at most one more list request for each
    call. *)
Theorem at_most_one_list_request_per_call (cs : list call) (st : State) :
  world st `prefix_of` world (run_calls X cs st)
  ∧ list_requests (world (run_calls X cs st))
    ≤ list_requests (world st) + length cs.
Proof.
  revert st. induction cs as [|c cs IH]; intros st.
  { split; [done|]. simpl. lia. }
  rewrite run_calls_cons.
  destruct (IH (run_call X c st)) as [Hpre Hcount].
  destruct (run_call_world c st) as (evs & Hw & Hone).
  rewrite Hw in Hpre, Hcount. rewrite list_requests_app in Hcount.
  split.
  - by eapply prefix_app_l.
  - cbn [length]. lia.
Qed.

(** *** The message of the ambiguous lookup *)

Lemma append_project_names_in_order (projects : list Project)
    (names : list string) (error_message : string) :
  Forall2 (λ (project : Project) n, project !! "name" = Some (VStr n))
          projects names →
  append_project_names projects error_message
  = Ok (error_message +:+ names_line names).
Proof.
  intros Hnames. revert error_message.
  induction Hnames as [|project n projects names Hn _ IH]; intros error_message.
  { cbn [append_project_names names_line]. by rewrite append_empty_r. }
  cbn [append_project_names names_line]. unfold project_name. rewrite Hn, IH.
  by rewrite !append_assoc.
Qed.

Lemma append_project_names_unnamed (projects : list Project)
    (error_message : string) :
  ¬ Forall has_name projects →
  ∃ e,
    (e = KeyError "name" ∨ e = TypeError "can only concatenate str to str")
    ∧ append_project_names projects error_message = Raise e.
Proof.
  revert error_message.
  induction projects as [|project rest IH]; intros error_message Hnot.
  { destruct Hnot. constructor. }
  cbn [append_project_names]. unfold project_name.
  destruct (project !! "name") as [v|] eqn:Hn; [|by eauto].
  destruct v as [| | |n| |]; try by eauto.
  apply IH. intros Hrest. apply Hnot. constructor; [by exists n|done].
Qed.

(** X9.  When the answer holds two records or more, each with its name,
    the message of the error is the header with the filter, followed by
    the names in the order of the answer, each after one space. *)
Theorem ambiguous_message_lists_names_in_order (st : State)
    (project_prefix : string) (response : Response) (names : list string) :
  let project_filter := _get_project_api_filter (self st) (Some project_prefix) in
  let returned := Response_get_projects response [] in
  _single_project_cache (self st) !! project_prefix = None →
  remote_responds X st project_filter response →
  2 ≤ length returned →
  Forall2 (λ (project : Project) n, project !! "name" = Some (VStr n))
          returned names →
  get_project X project_prefix st
  = (Raise (GoogleInfrastructureError
              ("More than one project returned for filter " +:+ project_filter
               +:+ ". Projects returned:" +:+ names_line names)),
     after_lookup st project_filter).
Proof.
  intros project_filter returned Hcache Hresp Hlen Hnames.
  rewrite (get_project_miss X _ _ _ Hcache Hresp).
  unfold project_continuation. cbv zeta. fold returned. fold project_filter.
  rewrite bool_decide_eq_false_2 by lia.
  rewrite bool_decide_eq_true_2 by lia.
  unfold mbind, M_bind, lift, raise.
  rewrite (append_project_names_in_order _ _ _ Hnames).
  by rewrite !append_assoc.
Qed.

(** X10.  When the answer holds two records or more and one of them has no
    name that is a string, the lookup does not raise the error of the
    module: reading the name raises [KeyError] for a record without the
    member, [TypeError] for a name that is not a string.  Nothing is
    cached. *)
Theorem get_project_unnamed_record (st : State) (project_prefix : string)
    (response : Response) :
  let project_filter := _get_project_api_filter (self st) (Some project_prefix) in
  let returned := Response_get_projects response [] in
  _single_project_cache (self st) !! project_prefix = None →
  remote_responds X st project_filter response →
  2 ≤ length returned →
  ¬ Forall has_name returned →
  ∃ e,
    (e = KeyError "name" ∨ e = TypeError "can only concatenate str to str")
    ∧ get_project X project_prefix st = (Raise e, after_lookup st project_filter)
    ∧ self (after_lookup st project_filter) = self st.
Proof.
  intros project_filter returned Hcache Hresp Hlen Hnot.
  destruct (append_project_names_unnamed returned (ambiguous_header project_filter) Hnot)
    as (e & He & Hloop).
  exists e. split_and!; [done| |done].
  rewrite (get_project_miss X _ _ _ Hcache Hresp).
  unfold project_continuation. cbv zeta. fold returned. fold project_filter.
  rewrite bool_decide_eq_false_2 by lia.
  rewrite bool_decide_eq_true_2 by lia.
  unfold mbind, M_bind, lift, raise. fold (ambiguous_header project_filter).
  by rewrite Hloop.
Qed.

(** *** The key file *)

Lemma remote_lookup_first_request (project_filter : string) (st : State) :
  ∃ evs,
    world (remote_lookup X project_filter st).2
    = world st ++ FromServiceAccountFile (service_account_path (self st)) scopes :: evs.
Proof.
  destruct (remote_lookup_world X project_filter st) as (evs & Hw & [k Hk] & Hne).
  destruct evs as [|e evs]; [done|]. exists evs. rewrite Hw.
  unfold lookup_events in Hk. cbn [app] in Hk. by injection Hk as <- _.
Qed.

Lemma get_all_projects_miss_world (st : State) :
  _all_projects_cache (self st) = [] →
  world (get_all_projects X st).2
  = world (remote_lookup X (_get_project_api_filter (self st) None) st).2.
Proof.
  intros Hc. rewrite get_all_projects_unfold, Hc.
  rewrite bool_decide_eq_false_2 by (simpl; lia).
  cbv zeta. unfold mbind, M_bind.
  destruct (remote_lookup X _ st) as [[r|e] st1]; [|done].
  unfold all_projects_continuation. cbv zeta. by case_bool_decide.
Qed.

Lemma get_project_miss_world (project_prefix : string) (st : State) :
  _single_project_cache (self st) !! project_prefix = None →
  world (get_project X project_prefix st).2
  = world (remote_lookup X
             (_get_project_api_filter (self st) (Some project_prefix)) st).2.
Proof.
  intros Hc. rewrite get_project_unfold, Hc.
  cbv zeta. unfold mbind, M_bind.
  destruct (remote_lookup X _ st) as [[r|e] st1]; [|done].
  unfold project_continuation. cbv zeta. case_bool_decide; [done|].
  case_bool_decide.
  { unfold mbind, M_bind, lift. by destruct (append_project_names _ _). }
  by destruct (Response_get_projects r []).
Qed.

(** X11.  Credentials are not kept: every call that is not answered from
    its cache begins by loading the key file at [service_account_path],
    for the cloud-platform scope and no other. *)
Theorem every_miss_loads_the_key_file (st : State) (project_prefix : string) :
  (_all_projects_cache (self st) = [] →
   ∃ evs,
     world (get_all_projects X st).2
     = world st
       ++ FromServiceAccountFile (service_account_path (self st))
            ["https://www.googleapis.com/auth/cloud-platform"] :: evs)
  ∧ (_single_project_cache (self st) !! project_prefix = None →
     ∃ evs,
       world (get_project X project_prefix st).2
       = world st
         ++ FromServiceAccountFile (service_account_path (self st))
              ["https://www.googleapis.com/auth/cloud-platform"] :: evs).
Proof.
  split; intros Hc.
  - rewrite (get_all_projects_miss_world _ Hc). apply remote_lookup_first_request.
  - rewrite (get_project_miss_world _ _ Hc). apply remote_lookup_first_request.
Qed.

(** X12.  An environment built by the constructor from overrides that
    leave the caches and the methods alone is an instance called by the
    name given, with both caches empty: its first [get_all_projects] and
    its first [get_project] go to the collaborators, with the key file the
    overrides name. *)
Theorem new_environment_looks_up_remotely (n : string)
    (entries : gmap string value) (w : list event) (project_prefix : string) :
  entries !! "name" = None →
  entries !! "self" = None →
  Forall (λ k, entries !! k = None) internal_names →
  ∃ (__dict__ : gmap string value) (new : t),
    __init__ n entries = Ok __dict__
    ∧ of_dict __dict__ = Some new
    ∧ name new = n
    ∧ _all_projects_cache new = []
    ∧ _single_project_cache new = ∅
    ∧ (∃ evs,
         world (get_all_projects X {| self := new; world := w |}).2
         = w ++ FromServiceAccountFile
                  (default VNone (entries !! "service_account_path")) scopes :: evs)
    ∧ (∃ evs,
         world (get_project X project_prefix {| self := new; world := w |}).2
         = w ++ FromServiceAccountFile
                  (default VNone (entries !! "service_account_path")) scopes :: evs).
Proof.
  intros Hname Hself Hinternal.
  eexists _, _. split; [by apply init_without_reserved_key|].
  split; [by apply of_dict_new_environment|].
  split_and!; [done|done|done| |].
  - rewrite get_all_projects_miss_world by done. apply remote_lookup_first_request.
  - rewrite get_project_miss_world by done. apply remote_lookup_first_request.
Qed.

End Further.

(** ** The filters *)

Lemma append_inj_last (c : Ascii.ascii) (s t : string) :
  s +:+ String c "" = t +:+ String c "" → s = t.
Proof.
  revert t. induction s as [|a s IH]; intros [|b t]; rewrite ?append_cons.
  - done.
  - intros [= _ H]. by destruct t.
  - intros [= _ H]. by destruct s.
  - intros [= <- H]. f_equal. by apply IH.
Qed.

(** X13.  For one environment the filter tells the prefix: two prefixes
    with the same filter are the same prefix.  And the filter of a prefix,
    the empty prefix included, is never the filter of the whole
    environment: [get_project] with the empty prefix asks for "name:*",
    not for the list of [get_all_projects]. *)
Theorem project_filters_are_distinct (self : GcpEnvironment.t) (p q : string) :
  (GcpEnvironment._get_project_api_filter self (Some p)
   = GcpEnvironment._get_project_api_filter self (Some q) → p = q)
  ∧ GcpEnvironment._get_project_api_filter self (Some p)
    ≠ GcpEnvironment._get_project_api_filter self None
  ∧ GcpEnvironment._get_project_api_filter self (Some "")
    = GcpEnvironment._get_project_api_filter self None +:+ " name:*".
Proof.
  unfold GcpEnvironment._get_project_api_filter. split_and!.
  - intros H. apply String.app_inj in H. apply String.app_inj in H.
    by apply append_inj_last in H.
  - intros H.
    rewrite <- (append_empty_r ("labels.cloud_env:" +:+ GcpEnvironment.name self)) in H
      at 2.
    by apply String.app_inj in H.
  - done.
Qed.

(** ** Construction *)


(** X15.  The constructor of an environment raises exactly when the
    overrides have the key [name] or [self], and then it is a
    [TypeError].  Otherwise the environment has the name given, every
    override as an attribute, and for the rest the six attributes of the
    constructor: an override can replace any attribute but the name. *)
Theorem environment_constructor (n : string) (entries : gmap string value) :
  ((∃ e, GcpEnvironment.__init__ n entries = Raise e)
   ↔ is_Some (entries !! "name") ∨ is_Some (entries !! "self"))
  ∧ (∀ e, GcpEnvironment.__init__ n entries = Raise e → ∃ msg, e = TypeError msg)
  ∧ (∀ __dict__ : gmap string value,
       GcpEnvironment.__init__ n entries = Ok __dict__ →
       __dict__ !! "name" = Some (VStr n)
       ∧ (∀ k v, entries !! k = Some v → __dict__ !! k = Some v)
       ∧ dom __dict__
         = dom entries
           ∪ {[ "name"; "organization"; "_all_projects_cache";
                "_single_project_cache"; "service_account_project";
                "service_account_path" ]}).
Proof.
  unfold GcpEnvironment.__init__. split_and!.
  - case_bool_decide as Hn; [split; [by left|by eexists]|].
    case_bool_decide as Hs; [split; [by right|by eexists]|].
    split; [by intros [? ?]|tauto].
  - intros e. case_bool_decide; [intros [= <-]; by eexists|].
    case_bool_decide; [intros [= <-]; by eexists|]. done.
  - intros d. case_bool_decide as Hn; [done|]. case_bool_decide as Hs; [done|].
    intros [= <-]. split_and!.
    + rewrite lookup_union_r; [by simplify_map_eq|].
      by apply eq_None_not_Some.
    + intros k v Hk. by apply lookup_union_Some_l.
    + rewrite dom_union_L, !dom_insert_L, dom_empty_L. set_solver.
Qed.

Lemma build_environments_reserved (items : list (string * gmap string value))
    (gcp_envs : gmap string (gmap string value)) :
  Exists (λ item, ¬ (("name" ∉ dom item.2) ∧ ("self" ∉ dom item.2))) items →
  ∃ msg, GcpEnvironment.build_environments items gcp_envs = Raise (TypeError msg).
Proof.
  revert gcp_envs.
  induction items as [|[n cfg] rest IH]; intros gcp_envs Hex.
  { by apply Exists_nil in Hex. }
  cbn [GcpEnvironment.build_environments].
  destruct (decide (is_Some (cfg !! "name") ∨ is_Some (cfg !! "self"))) as [Hres|Hok].
  { destruct (init_with_reserved_key n cfg Hres) as [msg ->]. by exists msg. }
  assert (cfg !! "name" = None ∧ cfg !! "self" = None) as [Hn Hs].
  { rewrite !eq_None_not_Some. tauto. }
  rewrite (init_without_reserved_key n cfg Hn Hs).
  apply IH. apply Exists_cons in Hex as [Hhead|Htail]; [|done].
  destruct Hhead. cbn [snd]. by rewrite !not_elem_of_dom.
Qed.

(** X16.  [get_environments_from_config] is all or nothing: it returns a
    mapping exactly when no override mapping has the key [name] or
    [self]; one such mapping among the environments makes the whole call
    raise [TypeError], without a partial result.  Either way the trace of
    requests is untouched. *)
Theorem get_environments_from_config_all_or_nothing
    (GCP_ENVS : gmap string (gmap string value)) (w : list event) :
  ((∃ gcp_envs, GcpEnvironment.get_environments_from_config GCP_ENVS w = (Ok gcp_envs, w))
   ↔ no_reserved_key GCP_ENVS)
  ∧ (¬ no_reserved_key GCP_ENVS →
     ∃ msg, GcpEnvironment.get_environments_from_config GCP_ENVS w
            = (Raise (TypeError msg), w))
  ∧ (GcpEnvironment.get_environments_from_config GCP_ENVS w).2 = w.
Proof.
  assert (¬ no_reserved_key GCP_ENVS →
          ∃ msg, GcpEnvironment.get_environments_from_config GCP_ENVS w
                 = (Raise (TypeError msg), w)) as Hraise.
  { intros Hnot. unfold no_reserved_key in Hnot.
    rewrite map_Forall_to_list in Hnot. apply not_Forall_Exists in Hnot; [|apply _].
    destruct (build_environments_reserved (map_to_list GCP_ENVS) ∅) as [msg Hmsg].
    { eapply Exists_impl; [exact Hnot|]. by intros [k cfg]. }
    exists msg. unfold GcpEnvironment.get_environments_from_config, lift.
    cbv zeta. by rewrite Hmsg. }
  split_and!; [|done|done].
  split.
  - intros [gcp_envs Hok].
    destruct (decide (no_reserved_key GCP_ENVS)) as [|Hnot]; [done|].
    destruct (Hraise Hnot) as [msg Hmsg]. congruence.
  - intros Hok.
    destruct (build_environments_lookup (map_to_list GCP_ENVS) ∅)
      as (built & Hbuilt & _).
    { apply NoDup_fst_map_to_list. }
    { intros k cfg Hin. rewrite <- !not_elem_of_dom. apply (Hok k cfg).
      by apply elem_of_map_to_list. }
    exists built. unfold GcpEnvironment.get_environments_from_config, lift.
    cbv zeta. by rewrite Hbuilt.
Qed.

(** ** Worked instances of the further properties *)

Section FurtherInstances.

Import GcpEnvironment.

Lemma get_all_projects_returns_witness :
  let st := fresh_state "prod" in
  let both := [named_project "proj-a"; named_project "proj-b"] in
  (_all_projects_cache (self st) = []
   ∧ both ≠ []
   ∧ remote_responds prod_directory st "labels.cloud_env:prod"
       (prod_answer "labels.cloud_env:prod"))
  ∧ get_all_projects prod_directory st
    = (Ok both,
       {| self := set_all_projects_cache both (self st);
          world := lookup_events (self st) "labels.cloud_env:prod" |}).
Proof.
  intros st both.
  assert (remote_responds prod_directory st "labels.cloud_env:prod"
            (prod_answer "labels.cloud_env:prod")) as Hresp by (by split_and!).
  assert (both ≠ []) as Hne by done.
  split; [by split_and!|].
  apply (proj2 (get_all_projects_returns prod_directory st both _)).
  right. split_and!; [done|done| |done].
  exists (prod_answer "labels.cloud_env:prod"). by split.
Defined.

Lemma get_all_projects_raises_witness :
  let st := fresh_state "prod" in
  let e := CollaboratorError "key file not found" in
  (_all_projects_cache (self st) = []
   ∧ collaborator_raises locked_directory st "labels.cloud_env:prod" e)
  ∧ (get_all_projects locked_directory st).1 = Raise e
  ∧ self (get_all_projects locked_directory st).2 = self st.
Proof.
  intros st e.
  assert (collaborator_raises locked_directory st "labels.cloud_env:prod" e)
    as Hraise by (by left).
  split; [by split|].
  destruct (get_all_projects_raises locked_directory st e) as [Hiff Hself].
  assert ((get_all_projects locked_directory st).1 = Raise e) as Hfails.
  { apply Hiff. split; [done|]. by left. }
  split; [exact Hfails|exact (Hself Hfails)].
Defined.

Lemma get_project_returns_witness :
  let st := fresh_state "prod" in
  let project_filter := "labels.cloud_env:prod name:proj-a*" in
  let found := named_project "proj-a-1" in
  (_single_project_cache (self st) !! "proj-a" = None
   ∧ remote_responds prod_directory st project_filter (prod_answer project_filter)
   ∧ Response_get_projects (prod_answer project_filter) [] = [found])
  ∧ get_project prod_directory "proj-a" st
    = (Ok found,
       {| self := set_single_project_cache (<[ "proj-a" := found ]> ∅) (self st);
          world := lookup_events (self st) project_filter |}).
Proof.
  intros st project_filter found.
  assert (remote_responds prod_directory st project_filter (prod_answer project_filter))
    as Hresp by (by split_and!).
  split; [by split_and!|].
  apply (proj2 (get_project_returns prod_directory "proj-a" st found _)).
  right. split_and!; [done| |done].
  exists (prod_answer project_filter). by split.
Defined.

Lemma get_project_raises_witness :
  let st := fresh_state "prod" in
  let e := CollaboratorError "key file not found" in
  (_single_project_cache (self st) !! "proj-a" = None
   ∧ collaborator_raises locked_directory st "labels.cloud_env:prod name:proj-a*" e)
  ∧ (get_project locked_directory "proj-a" st).1 = Raise e
  ∧ self (get_project locked_directory "proj-a" st).2 = self st.
Proof.
  intros st e.
  assert (collaborator_raises locked_directory st
            "labels.cloud_env:prod name:proj-a*" e) as Hraise by (by left).
  split; [by split|].
  destruct (get_project_raises locked_directory "proj-a" st e) as [Hiff Hself].
  assert ((get_project locked_directory "proj-a" st).1 = Raise e) as Hfails.
  { apply Hiff. split; [done|]. by left. }
  split; [exact Hfails|exact (Hself Hfails)].
Defined.

Lemma single_project_cache_grows_by_requests_witness :
  let st := fresh_state "prod" in
  let cs := [GetProject "proj-a"; GetAllProjects; GetProject "none"] in
  let after := _single_project_cache (self (run_calls prod_directory cs st)) in
  after !! "proj-a" = Some (named_project "proj-a-1")
  ∧ (is_Some (_single_project_cache (self st) !! "proj-a")
     ∨ "proj-a" ∈ requested_prefixes cs)
  ∧ after !! "none" = None.
Proof.
  intros st cs after.
  assert (after !! "proj-a" = Some (named_project "proj-a-1")) as Hin by reflexivity.
  split_and!; [exact Hin| |reflexivity].
  apply (proj1 (single_project_cache_grows_by_requests prod_directory cs st "proj-a")).
  by eexists.
Defined.

Lemma ambiguous_message_lists_names_in_order_witness :
  let st := fresh_state "prod" in
  let project_filter := "labels.cloud_env:prod name:proj*" in
  let response := prod_answer project_filter in
  (_single_project_cache (self st) !! "proj" = None
   ∧ remote_responds prod_directory st project_filter response
   ∧ 2 ≤ length (Response_get_projects response [])
   ∧ Forall2 (λ (project : Project) n, project !! "name" = Some (VStr n))
             (Response_get_projects response []) ["proj-a"; "proj-b"])
  ∧ get_project prod_directory "proj" st
    = (Raise (GoogleInfrastructureError
                "More than one project returned for filter labels.cloud_env:prod name:proj*. Projects returned: proj-a proj-b"),
       after_lookup st project_filter).
Proof.
  intros st project_filter response.
  assert (remote_responds prod_directory st project_filter response)
    as Hresp by (by split_and!).
  assert (2 ≤ length (Response_get_projects response [])) as Hlen
    by (vm_compute; lia).
  assert (Forall2 (λ (project : Project) n, project !! "name" = Some (VStr n))
            (Response_get_projects response []) ["proj-a"; "proj-b"]) as Hnames.
  { change (Response_get_projects response [])
      with [named_project "proj-a"; named_project "proj-b"].
    repeat constructor. }
  split; [by split_and!|].
  exact (ambiguous_message_lists_names_in_order prod_directory st "proj" response
           ["proj-a"; "proj-b"] eq_refl Hresp Hlen Hnames).
Defined.

Lemma get_project_unnamed_record_witness :
  let st := fresh_state "prod" in
  let project_filter := "labels.cloud_env:prod name:proj*" in
  let response := {| projects := Some [named_project "proj-a"; ∅] |} in
  (_single_project_cache (self st) !! "proj" = None
   ∧ remote_responds unnamed_directory st project_filter response
   ∧ 2 ≤ length (Response_get_projects response [])
   ∧ ¬ Forall has_name (Response_get_projects response []))
  ∧ ∃ e,
      (e = KeyError "name" ∨ e = TypeError "can only concatenate str to str")
      ∧ get_project unnamed_directory "proj" st
        = (Raise e, after_lookup st project_filter).
Proof.
  intros st project_filter response.
  assert (remote_responds unnamed_directory st project_filter response)
    as Hresp by (by split_and!).
  assert (2 ≤ length (Response_get_projects response [])) as Hlen
    by (vm_compute; lia).
  assert (¬ Forall has_name (Response_get_projects response [])) as Hnot.
  { change (Response_get_projects response []) with [named_project "proj-a"; (∅ : Project)].
    intros H. apply Forall_cons in H as [_ H]. apply Forall_cons in H as [[n Hn] _].
    by rewrite lookup_empty in Hn. }
  split; [by split_and!|].
  destruct (get_project_unnamed_record unnamed_directory st "proj" response
              eq_refl Hresp Hlen Hnot) as (e & He & Hraise & _).
  exists e. split; [exact He|exact Hraise].
Defined.

Lemma every_miss_loads_the_key_file_witness :
  let st := fresh_state "prod" in
  (_all_projects_cache (self st) = []
   ∧ _single_project_cache (self st) !! "proj-a" = None)
  ∧ (∃ evs,
       world (get_all_projects prod_directory st).2
       = FromServiceAccountFile VNone
           ["https://www.googleapis.com/auth/cloud-platform"] :: evs)
  ∧ (∃ evs,
       world (get_project locked_directory "proj-a" st).2
       = FromServiceAccountFile VNone
           ["https://www.googleapis.com/auth/cloud-platform"] :: evs).
Proof.
  intros st. split; [by split|]. split.
  - exact (proj1 (every_miss_loads_the_key_file prod_directory st "proj-a") eq_refl).
  - exact (proj2 (every_miss_loads_the_key_file locked_directory st "proj-a") eq_refl).
Defined.

Lemma keyed_overrides_leave_internals :
  Forall (λ k, keyed_overrides !! k = None) internal_names.
Proof. repeat constructor. Qed.

Lemma new_environment_looks_up_remotely_witness :
  (keyed_overrides !! "name" = None
   ∧ keyed_overrides !! "self" = None
   ∧ Forall (λ k, keyed_overrides !! k = None) internal_names)
  ∧ ∃ (__dict__ : gmap string value) (new : t),
      __init__ "prod" keyed_overrides = Ok __dict__
      ∧ of_dict __dict__ = Some new
      ∧ name new = "prod"
      ∧ ∃ evs,
          world (get_all_projects prod_directory {| self := new; world := [] |}).2
          = FromServiceAccountFile (VStr "/etc/gcp/prod.json") scopes :: evs.
Proof.
  split; [split_and!; [done|done|exact keyed_overrides_leave_internals]|].
  destruct (new_environment_looks_up_remotely prod_directory "prod" keyed_overrides
              [] "proj-a" eq_refl eq_refl keyed_overrides_leave_internals)
    as (d & new & Hinit & Hof & Hname & _ & _ & Hall & _).
  exists d, new. split_and!; [exact Hinit|exact Hof|exact Hname|exact Hall].
Defined.

End FurtherInstances.

Lemma project_filters_are_distinct_witness :
  let self := fresh_environment "prod" in
  GcpEnvironment._get_project_api_filter self (Some "proj-a")
  = GcpEnvironment._get_project_api_filter self (Some "proj-a")
  ∧ "proj-a" = "proj-a"
  ∧ GcpEnvironment._get_project_api_filter self (Some "") = "labels.cloud_env:prod name:*".
Proof.
  intros self. split; [reflexivity|]. split.
  - exact (proj1 (project_filters_are_distinct self "proj-a" "proj-a") eq_refl).
  - exact (proj2 (proj2 (project_filters_are_distinct self "" ""))).
Defined.


Lemma environment_constructor_witness :
  let entries : gmap string value := <[ "self" := VInt 1 ]> ∅ in
  is_Some (entries !! "self")
  ∧ ∃ e, GcpEnvironment.__init__ "prod" entries = Raise e.
Proof.
  intros entries.
  assert (is_Some (entries !! "self")) as Hself by (by eexists).
  split; [exact Hself|].
  apply (proj2 (proj1 (environment_constructor "prod" entries))). by right.
Defined.

Lemma renaming_config_reserved_key : ¬ no_reserved_key renaming_config.
Proof.
  intros Hok.
  destruct (Hok "prod" (<[ "name" := VStr "production" ]> ∅) eq_refl) as [Hname _].
  apply Hname. apply elem_of_dom. by eexists.
Qed.

Lemma get_environments_from_config_all_or_nothing_witness :
  (no_reserved_key sample_config ∧ ¬ no_reserved_key renaming_config)
  ∧ (∃ gcp_envs,
       GcpEnvironment.get_environments_from_config sample_config [] = (Ok gcp_envs, []))
  ∧ (∃ msg,
       GcpEnvironment.get_environments_from_config renaming_config []
       = (Raise (TypeError msg), [])).
Proof.
  split; [split; [exact sample_config_no_reserved_key|exact renaming_config_reserved_key]|].
  split.
  - exact (proj2 (proj1 (get_environments_from_config_all_or_nothing sample_config []))
             sample_config_no_reserved_key).
  - exact (proj1 (proj2 (get_environments_from_config_all_or_nothing renaming_config []))
             renaming_config_reserved_key).
Defined.
